(** * rollup-plugin-dts: the module resolver and the transform decision machine

    A shallow embedding of [src/index.ts]: the per-session plugin context
    (entry points and the pool of TypeScript programs), [getModule], the
    [transform] hook with its three inner strategies and the [resolveId]
    hook, followed by the properties of the specification.

    The TypeScript compiler, the file system, [node:path], the helper
    module, the program factory and the inner bundling transform are not
    part of [index.ts]; they are the fields of the class [Host]. The
    logging under [process.env.DTS_DEBUG] only writes to the console and is
    left out; the counters it reports are kept ([Tracker]). *)

From stdpp Require Import gmap strings list.
From Stdlib Require Import Ascii String List Bool Arith Lia.
Import ListNotations.
Local Open Scope string_scope.
Local Open Scope list_scope.
Local Open Scope nat_scope.
Local Open Scope stdpp_scope.

(** ** JavaScript string and array primitives *)

(** [s.endsWith(suffix)] *)
Definition endsWith (s suffix : string) : bool :=
  let n := String.length s in
  let m := String.length suffix in
  (m <=? n) && String.eqb (substring (n - m) m s) suffix.

(** [s.startsWith(p)] *)
Definition startsWith (s p : string) : bool := String.prefix p s.

(** [array.includes(x)] on an array of strings *)
Definition includes (l : list string) (x : string) : bool :=
  existsb (String.eqb x) l.

(** [s.split(a).join(b)] for one-character [a] and [b] *)
Fixpoint replaceAll (a b : ascii) (s : string) : string :=
  match s with
  | EmptyString => EmptyString
  | String c r => String (if Ascii.eqb c a then b else c) (replaceAll a b r)
  end.

Definition backslash : ascii := "092"%char.

(** [array.pop()], as a statement *)
Definition pop {A} (l : list A) : list A := removelast l.

(** [const TS_EXTENSIONS = /\.([cm]ts|[tj]sx?)$/] with [.test]: the regular
    expression is anchored at the end only, so it tests for one of six
    suffixes. *)
Definition TS_EXTENSIONS (id : string) : bool :=
  existsb (endsWith id) [".cts"; ".mts"; ".ts"; ".tsx"; ".js"; ".jsx"].

(** ** The part of the TypeScript API that [index.ts] calls *)

Module ts.

Record SourceFile := {
  fileName : string;
  getFullText : string
}.

Inductive DiagnosticCategory := Warning | Error | Suggestion | Message.

Definition isError (c : DiagnosticCategory) : bool :=
  match c with Error => true | _ => false end.

Record Diagnostic := {
  category : DiagnosticCategory;
  messageText : string
}.

(** What [program.emit(source, writeFile, ...)] does: the successive calls
    of the [writeFile] callback, as (file name, text) pairs, and the
    returned [{ emitSkipped, diagnostics }]. *)
Record EmitResult := {
  written : list (string * string);
  emitSkipped : bool;
  diagnostics : list Diagnostic
}.

Record Program := {
  getRootFileNames : list string;
  getSourceFile : string -> option SourceFile;
  isSourceFileFromExternalLibrary : SourceFile -> bool;
  getSourceFiles : list SourceFile;
  emit : SourceFile -> EmitResult
}.

Record PackageId := { name : string }.

(** [ts.ResolvedModuleFull]; an absent [isExternalLibraryImport] is falsy. *)
Record ResolvedModuleFull := {
  resolvedFileName : string;
  isExternalLibraryImport : bool;
  packageId : option PackageId
}.

End ts.

(** ** The collaborators of [index.ts]

    Everything [index.ts] imports or calls without defining it: the helper
    module, the program factory, the file system, module resolution,
    [node:path] and the inner bundling transform. *)
Class Host := {
  (** [ts.CompilerOptions], and the object the bundling transform returns *)
  CompilerOptions : Type;
  Output : Type;
  (** [helpers.js]: the two extension tests and the declaration identity *)
  DTS_EXTENSIONS : string -> bool;
  JSON_EXTENSIONS : string -> bool;
  getDeclarationId : string -> string;
  (** [program.js] *)
  createProgram : string -> CompilerOptions -> option string -> ts.Program;
  createPrograms :
    list string -> CompilerOptions -> option string -> list ts.Program;
  getCompilerOptions :
    string -> CompilerOptions -> option string -> CompilerOptions;
  (** [ts.sys.fileExists], [ts.resolveModuleName], [ts.formatDiagnostics] *)
  fileExists : string -> bool;
  resolveModuleName :
    string -> string -> CompilerOptions -> option ts.ResolvedModuleFull;
  formatDiagnostics : list ts.Diagnostic -> string;
  (** [path.resolve(...)] and [path.dirname] *)
  path_resolve : list string -> string;
  path_dirname : string -> string;
  (** [transformPlugin.transform.call(this, code, id)]: a rollup transform
      result, which may be the null value *)
  transformPlugin_transform : option string -> string -> option Output
}.

(** ** Plugin state *)

(** [interface Options], after [resolveDefaultOptions]. *)
Record ResolvedOptions `{Host} := {
  respectExternal : bool;
  includeExternal : list string;
  compilerOptions : CompilerOptions;
  tsconfig : option string
}.

Record DtsPluginContext `{Host} := {
  entries : list string;
  programs : list ts.Program;
  resolvedOptions : ResolvedOptions
}.

(** [interface ResolvedModule]; [code] is [source?.getFullText()] on two of
    the paths, hence possibly undefined. *)
Module ResolvedModule.
Record t := {
  code : option string;
  source : option ts.SourceFile;
  program : option ts.Program
}.
End ResolvedModule.
Abbreviation ResolvedModule := ResolvedModule.t.

(** The module-level resolution counters. *)
Record Tracker := {
  moduleResolutionStack : list string;
  moduleResolutionCount : gmap string nat;
  filesProcessed : gset string;
  totalGetModuleCalls : nat
}.

Definition emptyTracker : Tracker :=
  {| moduleResolutionStack := [];
     moduleResolutionCount := ∅;
     filesProcessed := ∅;
     totalGetModuleCalls := 0 |}.

(** The prologue of [getModule]: counters, then the push on the stack. *)
Definition enter (g : Tracker) (fileName : string) : Tracker :=
  let count := default 0 (moduleResolutionCount g !! fileName) + 1 in
  let isNewFile := negb (bool_decide (fileName ∈ filesProcessed g)) in
  {| moduleResolutionStack := moduleResolutionStack g ++ [fileName];
     moduleResolutionCount := <[fileName := count]> (moduleResolutionCount g);
     filesProcessed :=
       if isNewFile then {[fileName]} ∪ filesProcessed g else filesProcessed g;
     totalGetModuleCalls := totalGetModuleCalls g + 1 |}.

(** [moduleResolutionStack.pop()] *)
Definition leave (g : Tracker) : Tracker :=
  {| moduleResolutionStack := pop (moduleResolutionStack g);
     moduleResolutionCount := moduleResolutionCount g;
     filesProcessed := filesProcessed g;
     totalGetModuleCalls := totalGetModuleCalls g |}.

(** A hook either returns or throws (through [this.error]). *)
Inductive Completion (A : Type) :=
| Return (a : A)
| Throw (message : string).
Arguments Return {A} a.
Arguments Throw {A} message.

(** What [resolveId] returns: [undefined], or [{ id, external? }]. *)
Inductive ResolveIdResult :=
| Unresolved
| Resolved (id : string) (external : bool).

Section Plugin.

Context `{Host}.

Local Abbreviation Ctx := DtsPluginContext.

Definition withPrograms (ctx : Ctx) (ps : list ts.Program) : Ctx :=
  {| entries := entries ctx; programs := ps;
     resolvedOptions := resolvedOptions ctx |}.

Definition withEntries (ctx : Ctx) (es : list string) : Ctx :=
  {| entries := es; programs := programs ctx;
     resolvedOptions := resolvedOptions ctx |}.

(** *** [getModule] *)

(** The callback of [programs.find]. *)
Definition ownsFile (isEntry : bool) (fileName : string) (p : ts.Program) : bool :=
  if isEntry then includes (ts.getRootFileNames p) fileName
  else
    match ts.getSourceFile p fileName with
    | Some sourceFile =>
        if ts.isSourceFileFromExternalLibrary p sourceFile then false else true
    | None => false
    end.

(** The callback of [programs.some]. *)
Definition hasExternal (fileName : string) (p : ts.Program) : bool :=
  match ts.getSourceFile p fileName with
  | Some sourceFile => ts.isSourceFileFromExternalLibrary p sourceFile
  | None => false
  end.

Definition codeOnly (code : string) : ResolvedModule :=
  {| ResolvedModule.code := Some code;
     ResolvedModule.source := None;
     ResolvedModule.program := None |}.

Definition fromProgram (p : ts.Program) (fileName : string) : ResolvedModule :=
  let source := ts.getSourceFile p fileName in
  {| ResolvedModule.code := option_map ts.getFullText source;
     ResolvedModule.source := source;
     ResolvedModule.program := Some p |}.

Definition getModule (ctx : Ctx) (g : Tracker) (fileName code : string)
  : option ResolvedModule * Ctx * Tracker :=
  let g := enter g fileName in
  if (length (programs ctx) =? 0) && DTS_EXTENSIONS fileName then
    (Some (codeOnly code), ctx, leave g)
  else
    let isEntry := includes (entries ctx) fileName in
    match find (ownsFile isEntry fileName) (programs ctx) with
    | Some existingProgram =>
        (Some (fromProgram existingProgram fileName), ctx, leave g)
    | None =>
        if fileExists fileName then
          if (0 <? length (programs ctx)) && DTS_EXTENSIONS fileName
             && existsb (hasExternal fileName) (programs ctx)
          then (Some (codeOnly code), ctx, leave g)
          else
            let newProgram :=
              createProgram fileName
                (compilerOptions (resolvedOptions ctx))
                (tsconfig (resolvedOptions ctx)) in
            let ctx := withPrograms ctx (programs ctx ++ [newProgram]) in
            (Some (fromProgram newProgram fileName), ctx, leave g)
        else (None, ctx, leave g)
    end.

(** *** The [transform] hook *)

(** One run of the hook: what it returns or throws, the files handed to
    [this.addWatchFile] and the lines written with [console.error]. *)
Record TransformRun := {
  outcome : Completion (option Output);
  addWatchFile : list string;
  console_error : list string
}.

Definition returns (r : option Output) (watch : list string) : TransformRun :=
  {| outcome := Return r; addWatchFile := watch; console_error := [] |}.

Definition watchFiles (id : string) (module : ResolvedModule) : list string :=
  match ResolvedModule.program module with
  | Some p =>
      let sourceDirectory := path_dirname id in
      filter (fun fileName => startsWith fileName sourceDirectory)
             (map ts.fileName (ts.getSourceFiles p))
  | None => []
  end.

Definition handleDtsFile (ctx : Ctx) (g : Tracker) (code id : string)
  : TransformRun * Ctx * Tracker :=
  let '(module, ctx, g) := getModule ctx g id code in
  match module with
  | Some module =>
      (returns (transformPlugin_transform (ResolvedModule.code module) id)
               (watchFiles id module), ctx, g)
  | None => (returns None [], ctx, g)
  end.

Definition treatTsAsDts (ctx : Ctx) (g : Tracker) (code id : string)
  : TransformRun * Ctx * Tracker :=
  let declarationId := getDeclarationId id in
  let '(module, ctx, g) := getModule ctx g declarationId code in
  match module with
  | Some module =>
      (returns
         (transformPlugin_transform (ResolvedModule.code module) declarationId)
         (watchFiles id module), ctx, g)
  | None => (returns None [], ctx, g)
  end.

(** The [writeFile] callback of [emit] assigns [generated] at each call. *)
Definition writeAll (declarationId : string) (written : list (string * string))
  : option Output :=
  fold_left
    (fun _ '(_, declarationText) =>
       transformPlugin_transform (Some declarationText) declarationId)
    written None.

Definition failedToCompile : string := "Failed to compile. Check the logs above.".

Definition generateDts (ctx : Ctx) (g : Tracker) (code id : string)
  : TransformRun * Ctx * Tracker :=
  let '(module, ctx, g) := getModule ctx g id code in
  match module with
  | None => (returns None [], ctx, g)
  | Some module =>
      match ResolvedModule.source module, ResolvedModule.program module with
      | Some source, Some program =>
          let watch := watchFiles id module in
          let declarationId := getDeclarationId id in
          let result := ts.emit program source in
          let generated := writeAll declarationId (ts.written result) in
          if ts.emitSkipped result then
            let errors :=
              filter (fun diag => ts.isError (ts.category diag))
                     (ts.diagnostics result) in
            if negb (length errors =? 0) then
              ({| outcome := Throw failedToCompile;
                  addWatchFile := watch;
                  console_error := [formatDiagnostics errors] |}, ctx, g)
            else (returns generated watch, ctx, g)
          else (returns generated watch, ctx, g)
      | _, _ => (returns None [], ctx, g)
      end
  end.

(** [treated ?? generateDts()]; the watch files of both calls accumulate. *)
Definition treatOrGenerate (ctx : Ctx) (g : Tracker) (code id : string)
  : TransformRun * Ctx * Tracker :=
  let '(treated, ctx, g) := treatTsAsDts ctx g code id in
  match outcome treated with
  | Return None =>
      let '(result, ctx, g) := generateDts ctx g code id in
      ({| outcome := outcome result;
          addWatchFile := addWatchFile treated ++ addWatchFile result;
          console_error := console_error treated ++ console_error result |},
       ctx, g)
  | _ => (treated, ctx, g)
  end.

Definition transform (ctx : Ctx) (g : Tracker) (code id : string)
  : TransformRun * Ctx * Tracker :=
  if negb (TS_EXTENSIONS id) && negb (JSON_EXTENSIONS id) then
    (returns None [], ctx, g)
  else if DTS_EXTENSIONS id then handleDtsFile ctx g code id
  else if JSON_EXTENSIONS id then generateDts ctx g code id
  else treatOrGenerate ctx g code id.

(** *** The [options] and [resolveId] hooks *)

(** [options.input]: a string, an array or an object of named inputs. *)
Inductive InputOption :=
| InputString (s : string)
| InputArray (l : list string)
| InputObject (o : list (string * string)).

(** [Object.values(input)] after the normalisation at the head of the hook *)
Definition inputValues (input : option InputOption) : list string :=
  match input with
  | None => []
  | Some (InputString s) => [s]
  | Some (InputArray l) => l
  | Some (InputObject o) => map snd o
  end.

Definition options (ctx : Ctx) (input : option InputOption) : Ctx :=
  withPrograms ctx
    (createPrograms (inputValues input)
       (compilerOptions (resolvedOptions ctx))
       (tsconfig (resolvedOptions ctx))).

(** [!importer] holds of a missing importer and of the empty string. *)
Definition falsy (importer : option string) : bool :=
  match importer with
  | None => true
  | Some s => String.eqb s ""
  end.

(** The compiler options [resolveId] resolves with: those of the custom
    tsconfig that governs the import, when there is one. *)
Definition resolvedCompilerOptions (ctx : Ctx) (source importer : string)
  : CompilerOptions :=
  let opts := resolvedOptions ctx in
  match tsconfig opts with
  | Some tsconfigPath =>
      if negb (String.eqb tsconfigPath "") then
        let resolvedSource :=
          if startsWith source "." then
            path_resolve [path_dirname importer; source]
          else source in
        getCompilerOptions resolvedSource (compilerOptions opts) (tsconfig opts)
      else compilerOptions opts
  | None => compilerOptions opts
  end.

(** [includeExternal.includes(resolvedModule.packageId.name)], guarded by
    the presence of [packageId]. *)
Definition isIncluded (ctx : Ctx) (resolvedModule : ts.ResolvedModuleFull) : bool :=
  match ts.packageId resolvedModule with
  | Some packageId =>
      includes (includeExternal (resolvedOptions ctx)) (ts.name packageId)
  | None => false
  end.

Definition registerEntry (ctx : Ctx) (source : string) : Ctx :=
  withEntries ctx (entries ctx ++ [path_resolve [source]]).

Definition resolveId (ctx : Ctx) (source : string) (importer : option string)
  : ResolveIdResult * Ctx :=
  if falsy importer then (Unresolved, registerEntry ctx source)
  else
    let importer := replaceAll backslash "/" (default "" importer) in
    match resolveModuleName source importer
            (resolvedCompilerOptions ctx source importer) with
    | None => (Unresolved, ctx)
    | Some resolvedModule =>
        if ts.isExternalLibraryImport resolvedModule
           && isIncluded ctx resolvedModule
        then
          (Resolved (path_resolve [ts.resolvedFileName resolvedModule]) false, ctx)
        else if negb (respectExternal (resolvedOptions ctx))
                && ts.isExternalLibraryImport resolvedModule
        then (Resolved source true, ctx)
        else
          (Resolved (path_resolve [ts.resolvedFileName resolvedModule]) false, ctx)
    end.

(** *** The specification's reading of the existing-unit search *)

(** A unit matches a request: an entry point by the unit's roots, any other
    file by membership that no external dependency contributes. *)
Definition Matches (ctx : Ctx) (fileName : string) (p : ts.Program) : Prop :=
  (In fileName (entries ctx) /\ In fileName (ts.getRootFileNames p))
  \/ (~ In fileName (entries ctx)
      /\ exists sourceFile,
           ts.getSourceFile p fileName = Some sourceFile
           /\ ts.isSourceFileFromExternalLibrary p sourceFile = false).

(** A unit has the file as a member that an external dependency contributes. *)
Definition ExternalMember (fileName : string) (p : ts.Program) : Prop :=
  exists sourceFile,
    ts.getSourceFile p fileName = Some sourceFile
    /\ ts.isSourceFileFromExternalLibrary p sourceFile = true.

(** The counted resolution requests between two states of the counters. *)
Definition resolutions (g g' : Tracker) : nat :=
  totalGetModuleCalls g' - totalGetModuleCalls g.

(** *** Sessions

    The host calls the hooks one at a time; a session is the list of its
    requests, run in order on the shared context and counters. *)

(** Resolution requests, as (file name, raw text) pairs. *)
Fixpoint resolveAll (ctx : Ctx) (g : Tracker) (requests : list (string * string))
  : list (option ResolvedModule) * Ctx * Tracker :=
  match requests with
  | [] => ([], ctx, g)
  | (fileName, code) :: rest =>
      let '(module, ctx, g) := getModule ctx g fileName code in
      let '(modules, ctx, g) := resolveAll ctx g rest in
      (module :: modules, ctx, g)
  end.

(** The file names of the requests that made [getModule] push a program. *)
Fixpoint creations (ctx : Ctx) (g : Tracker) (requests : list (string * string))
  : list string :=
  match requests with
  | [] => []
  | (fileName, code) :: rest =>
      let '(_, ctx', g') := getModule ctx g fileName code in
      (if length (programs ctx) <? length (programs ctx') then [fileName] else [])
        ++ creations ctx' g' rest
  end.

(** Transform requests, as (raw text, file identity) pairs. *)
Fixpoint transformAll (ctx : Ctx) (g : Tracker) (requests : list (string * string))
  : list TransformRun * Ctx * Tracker :=
  match requests with
  | [] => ([], ctx, g)
  | (code, id) :: rest =>
      let '(run, ctx, g) := transform ctx g code id in
      let '(runs, ctx, g) := transformAll ctx g rest in
      (run :: runs, ctx, g)
  end.


(** A source file: a TypeScript or JavaScript name that is neither a
    declaration file nor JSON. *)
Definition isSourceFile (id : string) : bool :=
  TS_EXTENSIONS id && negb (DTS_EXTENSIONS id) && negb (JSON_EXTENSIONS id).

(** *** What the properties assume of the collaborators *)


(** A program made for a declaration file on disk has that file among its
    roots, as a member that does not come from an external library. *)
Definition CreatedProgramOwnsItsFile : Prop :=
  forall fileName options tsconfigPath isEntry,
    fileExists fileName = true ->
    DTS_EXTENSIONS fileName = true ->
    ownsFile isEntry fileName (createProgram fileName options tsconfigPath) = true.

(** A program made for a file on disk has its roots and members on disk. *)
Definition CreatedProgramReadsDisk : Prop :=
  forall fileName options tsconfigPath isEntry other,
    fileExists fileName = true ->
    ownsFile isEntry other (createProgram fileName options tsconfigPath) = true ->
    fileExists other = true.

(** The bundling transform returns a result, never the null value. *)
Definition TransformAlwaysYields : Prop :=
  forall code id, transformPlugin_transform code id <> None.

(** The declaration identity of a source file has a declaration-file name. *)
Definition DeclarationIdIsDeclaration : Prop :=
  forall id, TS_EXTENSIONS id = true -> DTS_EXTENSIONS (getDeclarationId id) = true.

End Plugin.

(** ** A concrete project

    A small disk, a helper module with the usual extensions and a compiler
    that makes one-file programs: an instance of [Host] on which the
    definitions run. *)

Module Demo.

Definition disk : list string :=
  [ "/src/index.ts"; "/src/util.ts"; "/src/types.d.ts"; "/src/data.json";
    "/src/broken.ts"; "/src/index.d.ts";
    "/node_modules/lib/index.d.ts"; "/node_modules/lib/extra.d.ts" ].

Definition dropLast (n : nat) (s : string) : string :=
  substring 0 (String.length s - n) s.

Definition stem (id : string) : string :=
  if endsWith id ".d.ts" then dropLast 5 id
  else if endsWith id ".json" then dropLast 5 id
  else if existsb (endsWith id) [".tsx"; ".jsx"; ".cts"; ".mts"] then dropLast 4 id
  else if existsb (endsWith id) [".ts"; ".js"] then dropLast 3 id
  else id.

Definition declarationIdOf (id : string) : string := String.append (stem id) ".d.ts".

(** A program from its roots and its files (name, text, external flag). *)
Definition mkProgram (roots : list string) (files : list (string * string * bool))
    (emit : ts.SourceFile -> ts.EmitResult) : ts.Program :=
  {| ts.getRootFileNames := roots;
     ts.getSourceFile := fun fileName =>
       match find (fun '(n, _, _) => String.eqb n fileName) files with
       | Some (n, text, _) => Some {| ts.fileName := n; ts.getFullText := text |}
       | None => None
       end;
     ts.isSourceFileFromExternalLibrary := fun sourceFile =>
       match find (fun '(n, _, _) => String.eqb n (ts.fileName sourceFile)) files with
       | Some (_, _, ext) => ext
       | None => false
       end;
     ts.getSourceFiles :=
       map (fun '(n, text, _) => {| ts.fileName := n; ts.getFullText := text |}) files;
     ts.emit := emit |}.

Definition typeError : ts.Diagnostic :=
  {| ts.category := ts.Error;
     ts.messageText := "Type 'string' is not assignable to type 'number'." |}.

Definition unusedHint : ts.Diagnostic :=
  {| ts.category := ts.Suggestion;
     ts.messageText := "'x' is declared but its value is never read." |}.

(** Emit fails on the broken file and writes one declaration otherwise. *)
Definition emitOf (sourceFile : ts.SourceFile) : ts.EmitResult :=
  if String.eqb (ts.fileName sourceFile) "/src/broken.ts" then
    {| ts.written := []; ts.emitSkipped := true;
       ts.diagnostics := [unusedHint; typeError] |}
  else
    {| ts.written :=
         [(declarationIdOf (ts.fileName sourceFile),
           String.append "declare " (ts.getFullText sourceFile))];
       ts.emitSkipped := false; ts.diagnostics := [] |}.

Definition programFor (fileName : string) : ts.Program :=
  mkProgram [fileName] [(fileName, String.append "text of " fileName, false)] emitOf.

Definition formatAll (ds : list ts.Diagnostic) : string :=
  String.concat "; " (map ts.messageText ds).

(** The directory of a path: everything before the last slash. *)
Fixpoint dirnameOf (s : string) : string :=
  match s with
  | EmptyString => EmptyString
  | String c r =>
      if existsb (Ascii.eqb "/") (list_ascii_of_string r)
      then String c (dirnameOf r) else EmptyString
  end.

#[export] Instance host : Host := {|
  CompilerOptions := unit;
  Output := option string * string;
  DTS_EXTENSIONS := fun id => endsWith id ".d.ts";
  JSON_EXTENSIONS := fun id => endsWith id ".json";
  getDeclarationId := declarationIdOf;
  createProgram := fun fileName _ _ => programFor fileName;
  createPrograms := fun inputs _ _ =>
    map programFor (filter (fun id => negb (endsWith id ".d.ts")) inputs);
  getCompilerOptions := fun _ options _ => options;
  fileExists := includes disk;
  resolveModuleName := fun source importer _ =>
    if String.eqb source "lib" then
      Some {| ts.resolvedFileName := "/node_modules/lib/index.d.ts";
              ts.isExternalLibraryImport := true;
              ts.packageId := Some {| ts.name := "lib" |} |}
    else if String.eqb source "./util" then
      Some {| ts.resolvedFileName := "/src/util.ts";
              ts.isExternalLibraryImport := false;
              ts.packageId := None |}
    else None;
  formatDiagnostics := formatAll;
  path_resolve := fun parts => last parts "";
  path_dirname := dirnameOf;
  transformPlugin_transform := fun code id => Some (code, id)
|}.

Definition defaults : ResolvedOptions :=
  {| respectExternal := false; includeExternal := [];
     compilerOptions := tt; tsconfig := None |}.

(** A program rooted at the index file, which imports the util file and an
    external library. *)
Definition indexProgram : ts.Program :=
  mkProgram ["/src/index.ts"]
    [ ("/src/index.ts", "import './util'; import 'lib';", false);
      ("/src/util.ts", "export const u = 1;", false);
      ("/node_modules/lib/index.d.ts", "export * from './extra';", true);
      ("/node_modules/lib/extra.d.ts", "export declare const e: 1;", true) ]
    emitOf.

(** A program that has the util file as its root. *)
Definition utilProgram : ts.Program :=
  mkProgram ["/src/util.ts"]
    [ ("/src/util.ts", "export const u = 1;", false) ] emitOf.

Definition fresh : DtsPluginContext :=
  {| entries := []; programs := []; resolvedOptions := defaults |}.

Definition project : DtsPluginContext :=
  {| entries := ["/src/index.ts"];
     programs := [indexProgram];
     resolvedOptions := defaults |}.

Definition twoEntries : DtsPluginContext :=
  {| entries := ["/src/index.ts"; "/src/util.ts"];
     programs := [indexProgram; utilProgram];
     resolvedOptions := defaults |}.

(** An entry point that no unit of the pool roots yet. *)
Definition unrooted : DtsPluginContext :=
  {| entries := ["/src/index.ts"];
     programs := [utilProgram];
     resolvedOptions := defaults |}.

(** A session whose only input is a declaration file: the [options] hook
    receives it as a string, then the host resolves it without importer,
    which registers it as the entry point. The requests follow an import of
    a JSON file from it. *)
Definition declarationInput : option InputOption :=
  Some (InputString "/src/index.d.ts").

Definition declarationSession : DtsPluginContext :=
  snd (resolveId (options fresh declarationInput) "/src/index.d.ts" None).

Definition jsonRequests : list (string * string) :=
  [ ("import data from './data.json'; export default data;", "/src/index.d.ts");
    ("{}", "/src/data.json") ].

End Demo.

(** ** The debug report and the input rewrite

    The parts of [getModule] and of the [options] hook that the resolution
    itself does not depend on: what the hook would log under
    [process.env.DTS_DEBUG], and the named inputs the [options] hook hands on
    to the bundling transform. *)

(** [array.indexOf(x)]: the first index of [x], or -1. *)
Fixpoint indexOfFrom (l : list string) (x : string) (i : Z) : Z :=
  match l with
  | [] => (-1)%Z
  | y :: rest => if String.eqb y x then i else indexOfFrom rest x (i + 1)%Z
  end.

Definition indexOf (l : list string) (x : string) : Z := indexOfFrom l x 0%Z.

(** [s.split(sep)] for a one-character separator: never the empty array. *)
Fixpoint split (sep : ascii) (s : string) : list string :=
  match s with
  | EmptyString => [EmptyString]
  | String c rest =>
      if Ascii.eqb c sep then EmptyString :: split sep rest
      else
        match split sep rest with
        | [] => [String c EmptyString]
        | head :: tail => String c head :: tail
        end
  end.

(** [array.slice(-n)]: the last [n] elements, all of them when there are fewer. *)
Definition sliceLast {A} (n : nat) (l : list A) : list A :=
  skipn (length l - n) l.

(** [array.join(sep)] *)
Definition join (sep : string) (l : list string) : string := String.concat sep l.

(** [fileName.split('/').slice(-3).join('/')] *)
Definition shortPath (fileName : string) : string :=
  join "/" (sliceLast 3 (split "/" fileName)).

(** Which of the two warnings [getModule] logs before its report line. *)
Inductive DebugNote :=
| CycleDetected (cycleIndex : Z)
| Repeated (count : nat)
| NoNote.

(** The report line: NEW or SEEN, [filesProcessed.size], [programs.length],
    the declaration test and [moduleResolutionStack.length]. *)
Record DebugReport := {
  note : DebugNote;
  isNewFile : bool;
  uniqueFiles : nat;
  poolSize : nat;
  isDTS : bool;
  depth : nat
}.

Section Debug.

Context `{Host}.

(** What [getModule] logs for a request that finds the counters at [g]: the
    counters are updated first, the stack is pushed after the report. *)
Definition debugReport (ctx : DtsPluginContext) (g : Tracker) (fileName : string)
  : DebugReport :=
  let g' := enter g fileName in
  let count := default 0 (moduleResolutionCount g !! fileName) + 1 in
  let cycleIndex := indexOf (moduleResolutionStack g) fileName in
  {| note :=
       if (0 <=? cycleIndex)%Z then CycleDetected cycleIndex
       else if 1 <? count then Repeated count
       else NoNote;
     isNewFile := negb (bool_decide (fileName ∈ filesProcessed g));
     uniqueFiles := size (filesProcessed g');
     poolSize := length (programs ctx);
     isDTS := DTS_EXTENSIONS fileName;
     depth := length (moduleResolutionStack g) |}.

(** The reports of a session of resolution requests, in order. *)
Fixpoint debugTrace (ctx : DtsPluginContext) (g : Tracker)
    (requests : list (string * string)) : list DebugReport :=
  match requests with
  | [] => []
  | (fileName, code) :: rest =>
      let '(_, ctx', g') := getModule ctx g fileName code in
      debugReport ctx g fileName :: debugTrace ctx' g' rest
  end.

(** The counters account for the file names requested so far. *)
Definition Accounts (g : Tracker) (seen : list string) : Prop :=
  moduleResolutionStack g = []
  /\ totalGetModuleCalls g = length seen
  /\ filesProcessed g = list_to_set seen
  /\ forall fileName,
       default 0 (moduleResolutionCount g !! fileName)
       = count_occ string_dec seen fileName.


(** The context [ctx'] is [ctx] with at most [n] programs pushed, each made
    for a file on disk with the compiler options of the session. *)
Definition Extends (ctx ctx' : DtsPluginContext) (n : nat) : Prop :=
  entries ctx' = entries ctx
  /\ resolvedOptions ctx' = resolvedOptions ctx
  /\ exists created,
       programs ctx' = programs ctx ++ created
       /\ length created <= n
       /\ Forall (fun p =>
                    exists file,
                      fileExists file = true
                      /\ p = createProgram file
                               (compilerOptions (resolvedOptions ctx))
                               (tsconfig (resolvedOptions ctx)))
                 created.

End Debug.

(** [helpers.js] and [node:path], as the [options] hook uses them. *)
Class PathHelpers := {
  trimExtension : string -> string;
  path_isAbsolute : string -> bool;
  path_basename : string -> string;
  path_normalize : string -> string
}.

Section InputRewrite.

Context `{PathHelpers}.

(** The name the [options] hook gives an unnamed input. *)
Definition inputName (filename : string) : string :=
  let name := trimExtension filename in
  if path_isAbsolute filename then path_basename name else path_normalize name.

(** [options.input[name] = filename] on a plain object: a later assignment to
    the same name replaces the earlier one, and assigning a string to
    [__proto__] stores no property. *)
Definition assignInput (o : gmap string string) (filename : string)
  : gmap string string :=
  let name := inputName filename in
  if String.eqb name "__proto__" then o else <[name := filename]> o.

Definition namedInputs (inputs : list string) : gmap string string :=
  fold_left assignInput inputs ∅.

(** [options.input] when the hook returns: rewritten to an object of named
    inputs for an array of more than one input, left as it was otherwise. *)
Definition rewrittenInput (input : option InputOption)
  : option (gmap string string) :=
  match input with
  | Some (InputArray l) => if 1 <? length l then Some (namedInputs l) else None
  | _ => None
  end.

End InputRewrite.


(** Path helpers for the concrete project. *)
Module DemoPaths.

Definition basenameOf (s : string) : string := last (split "/" s) "".

#[export] Instance helpers : PathHelpers := {|
  trimExtension := Demo.stem;
  path_isAbsolute := fun s => startsWith s "/";
  path_basename := basenameOf;
  path_normalize := fun s => s
|}.

End DemoPaths.


(** ** Running the definitions *)

Example ts_extensions_examples :
  map TS_EXTENSIONS ["/src/index.ts"; "a.d.ts"; "a.mts"; "a.jsx"; "a.json"; "ts"; "a.tsxx"]
  = [true; true; true; true; false; false; false].
Proof. reflexivity. Qed.

Example declaration_id_examples :
  map Demo.declarationIdOf ["/src/index.ts"; "/src/a.tsx"; "/src/types.d.ts"]
  = ["/src/index.d.ts"; "/src/a.d.ts"; "/src/types.d.ts"].
Proof. reflexivity. Qed.

(** ** Properties *)

Section Properties.

Context `{Host}.

Local Abbreviation Ctx := DtsPluginContext.

(** *** Arrays and the two search callbacks *)

Lemma includes_In (l : list string) (x : string) :
  includes l x = true <-> In x l.
Proof.
  unfold includes. rewrite existsb_exists. split.
  - intros [y [Hy Heq]]. apply String.eqb_eq in Heq. now subst.
  - intros Hx. exists x. split; [assumption | apply String.eqb_refl].
Qed.

Lemma includes_not_In (l : list string) (x : string) :
  includes l x = false <-> ~ In x l.
Proof.
  rewrite <- includes_In. destruct (includes l x); split; congruence.
Qed.

Lemma ownsFile_Matches (ctx : Ctx) (fileName : string) (p : ts.Program) :
  ownsFile (includes (entries ctx) fileName) fileName p = true
  <-> Matches ctx fileName p.
Proof.
  unfold ownsFile, Matches.
  destruct (includes (entries ctx) fileName) eqn:He.
  - apply includes_In in He. rewrite includes_In. tauto.
  - apply includes_not_In in He. split.
    + intros Hown. right. split; [assumption |].
      destruct (ts.getSourceFile p fileName) as [sf |]; [| discriminate].
      exists sf. split; [reflexivity |].
      destruct (ts.isSourceFileFromExternalLibrary p sf); congruence.
    + intros [[Hin _] | [_ [sf [Hsf Hext]]]]; [contradiction |].
      now rewrite Hsf, Hext.
Qed.

Lemma hasExternal_ExternalMember (fileName : string) (p : ts.Program) :
  hasExternal fileName p = true <-> ExternalMember fileName p.
Proof.
  unfold hasExternal, ExternalMember. split.
  - destruct (ts.getSourceFile p fileName) as [sf |]; [| discriminate].
    intros Hext. now exists sf.
  - intros [sf [Hsf Hext]]. now rewrite Hsf.
Qed.

Lemma find_first {A} (f : A -> bool) (before after : list A) (x : A) :
  (forall y, In y before -> f y = false) -> f x = true ->
  find f (before ++ x :: after) = Some x.
Proof.
  intros Hbefore Hx. induction before as [| y before IH]; simpl.
  - now rewrite Hx.
  - rewrite (Hbefore y) by now left. apply IH. intros z Hz. apply Hbefore. now right.
Qed.

Lemma find_none_app {A} (f : A -> bool) (l : list A) (x : A) :
  find f l = None -> find f (l ++ [x]) = if f x then Some x else None.
Proof.
  induction l as [| y l IH]; simpl; [reflexivity |].
  destruct (f y); [discriminate | exact IH].
Qed.


(** *** The five exits of [getModule] *)

Lemma getModule_fast_path (ctx : Ctx) (g : Tracker) (fileName code : string) :
  programs ctx = [] -> DTS_EXTENSIONS fileName = true ->
  getModule ctx g fileName code = (Some (codeOnly code), ctx, leave (enter g fileName)).
Proof.
  intros Hempty Hdts. unfold getModule. now rewrite Hempty, Hdts.
Qed.

Lemma getModule_existing (ctx : Ctx) (g : Tracker) (fileName code : string)
    (p : ts.Program) :
  find (ownsFile (includes (entries ctx) fileName) fileName) (programs ctx) = Some p ->
  getModule ctx g fileName code
  = (Some (fromProgram p fileName), ctx, leave (enter g fileName)).
Proof.
  intros Hfind. unfold getModule. rewrite Hfind.
  destruct (programs ctx); [discriminate | reflexivity].
Qed.

Lemma getModule_no_match (ctx : Ctx) (g : Tracker) (fileName code : string) :
  (length (programs ctx) =? 0) && DTS_EXTENSIONS fileName = false ->
  find (ownsFile (includes (entries ctx) fileName) fileName) (programs ctx) = None ->
  getModule ctx g fileName code
  = if fileExists fileName then
      if (0 <? length (programs ctx)) && DTS_EXTENSIONS fileName
         && existsb (hasExternal fileName) (programs ctx)
      then (Some (codeOnly code), ctx, leave (enter g fileName))
      else
        let newProgram :=
          createProgram fileName (compilerOptions (resolvedOptions ctx))
                        (tsconfig (resolvedOptions ctx)) in
        (Some (fromProgram newProgram fileName),
         withPrograms ctx (programs ctx ++ [newProgram]),
         leave (enter g fileName))
    else (None, ctx, leave (enter g fileName)).
Proof.
  intros Hfast Hfind. unfold getModule. now rewrite Hfast, Hfind.
Qed.

(** The counters never influence the result: every exit leaves them at
    [leave (enter g fileName)]. *)
Lemma getModule_tracker (ctx : Ctx) (g : Tracker) (fileName code : string) :
  snd (getModule ctx g fileName code) = leave (enter g fileName).
Proof.
  unfold getModule.
  repeat match goal with
         | |- context [if ?b then _ else _] => destruct b
         | |- context [match ?o with Some _ => _ | None => _ end] => destruct o
         end; reflexivity.
Qed.

Lemma getModule_any_tracker (ctx : Ctx) (g g' : Tracker) (fileName code : string) :
  fst (getModule ctx g fileName code) = fst (getModule ctx g' fileName code).
Proof.
  unfold getModule.
  repeat match goal with
         | |- context [if ?b then _ else _] => destruct b
         | |- context [match ?o with Some _ => _ | None => _ end] => destruct o
         end; reflexivity.
Qed.

(** The stack is balanced and one call is counted. *)
Lemma leave_enter (g : Tracker) (fileName : string) :
  moduleResolutionStack (leave (enter g fileName)) = moduleResolutionStack g
  /\ totalGetModuleCalls (leave (enter g fileName)) = totalGetModuleCalls g + 1.
Proof.
  simpl. split; [| reflexivity]. unfold pop. apply removelast_last.
Qed.

(** [getModule] keeps the entries and the options, and the pool only grows,
    by at most the program made for the requested file. *)
Lemma getModule_frame (ctx : Ctx) (g : Tracker) (fileName code : string) :
  let ctx' := snd (fst (getModule ctx g fileName code)) in
  entries ctx' = entries ctx
  /\ resolvedOptions ctx' = resolvedOptions ctx
  /\ (ctx' = ctx
      \/ fileExists fileName = true
         /\ programs ctx'
            = programs ctx
                ++ [createProgram fileName (compilerOptions (resolvedOptions ctx))
                                  (tsconfig (resolvedOptions ctx))]).
Proof.
  unfold getModule.
  destruct (_ && DTS_EXTENSIONS fileName); [simpl; auto |].
  destruct (find _ _); [simpl; auto |].
  destruct (fileExists fileName) eqn:Hexists; [| simpl; auto].
  destruct (_ && _ && _); simpl; auto.
Qed.

Lemma find_none_iff {A} (f : A -> bool) (l : list A) :
  find f l = None <-> forall x, In x l -> f x = false.
Proof.
  split; [apply find_none |].
  induction l as [| y l IH]; simpl; [reflexivity |]. intros Hall.
  rewrite (Hall y) by now left. apply IH. intros x Hx. apply Hall. now right.
Qed.

Lemma no_match_iff (ctx : Ctx) (fileName : string) :
  find (ownsFile (includes (entries ctx) fileName) fileName) (programs ctx) = None
  <-> forall p, In p (programs ctx) -> ~ Matches ctx fileName p.
Proof.
  rewrite find_none_iff. split; intros Hall p Hp.
  - rewrite <- ownsFile_Matches. rewrite (Hall p Hp). discriminate.
  - specialize (Hall p Hp). rewrite <- ownsFile_Matches in Hall.
    now destruct (ownsFile _ fileName p).
Qed.

Lemma fast_path_iff (ctx : Ctx) (fileName : string) :
  (length (programs ctx) =? 0) && DTS_EXTENSIONS fileName = true
  <-> programs ctx = [] /\ DTS_EXTENSIONS fileName = true.
Proof.
  rewrite andb_true_iff, Nat.eqb_eq. split; intros [Hlen Hdts]; split; trivial.
  - now apply length_zero_iff_nil.
  - now rewrite Hlen.
Qed.

(** *** The module resolver *)

Lemma getModule_not_found_inv (ctx : Ctx) (g : Tracker) (fileName code : string) :
  fst (fst (getModule ctx g fileName code)) = None ->
  (length (programs ctx) =? 0) && DTS_EXTENSIONS fileName = false
  /\ find (ownsFile (includes (entries ctx) fileName) fileName) (programs ctx)
     = None
  /\ fileExists fileName = false.
Proof.
  unfold getModule.
  destruct (_ && DTS_EXTENSIONS fileName); [discriminate |].
  destruct (find _ _); [discriminate |].
  destruct (fileExists fileName); [| auto].
  destruct (_ && _ && _); discriminate.
Qed.

(** C8. [getModule] is total: on every context, file identity and raw text
    it returns a resolution record or the null result, and the null result
    is returned exactly when the zero-program fast path does not apply, no
    unit of the pool matches and the file does not exist on disk. *)
Theorem getModule_returns_or_not_found (ctx : Ctx) (g : Tracker)
    (fileName code : string) :
  exists (module : option ResolvedModule) (ctx' : Ctx) (g' : Tracker),
    getModule ctx g fileName code = (module, ctx', g')
    /\ (module = None
        <-> ~ (programs ctx = [] /\ DTS_EXTENSIONS fileName = true)
            /\ (forall p, In p (programs ctx) -> ~ Matches ctx fileName p)
            /\ fileExists fileName = false).
Proof.
  destruct (getModule ctx g fileName code) as [[module ctx'] g'] eqn:Hget.
  exists module, ctx', g'. split; [reflexivity |].
  rewrite <- fast_path_iff, <- no_match_iff.
  destruct ((length (programs ctx) =? 0) && DTS_EXTENSIONS fileName) eqn:Hfast.
  - pose proof Hfast as Hfast'. apply fast_path_iff in Hfast' as [Hempty Hdts].
    rewrite (getModule_fast_path _ _ _ _ Hempty Hdts) in Hget.
    injection Hget as <- _ _.
    split; [discriminate | intros [Hno _]; now contradict Hno].
  - destruct (find (ownsFile (includes (entries ctx) fileName) fileName)
                   (programs ctx)) as [p |] eqn:Hfind.
    + rewrite (getModule_existing _ _ _ _ _ Hfind) in Hget.
      injection Hget as <- _ _.
      split; [discriminate | intros [_ [Hno _]]; discriminate].
    + rewrite (getModule_no_match _ _ _ _ Hfast Hfind) in Hget.
      destruct (fileExists fileName).
      * destruct ((0 <? length (programs ctx)) && DTS_EXTENSIONS fileName
                  && existsb (hasExternal fileName) (programs ctx));
          injection Hget as <- _ _;
          (split; [discriminate | intros [_ [_ Hno]]; discriminate]).
      * injection Hget as <- _ _.
        split; [intros _; repeat split; congruence | reflexivity].
Qed.

(** C2. The existing-unit search takes the first unit of the pool, in
    creation order, that matches the requested file: when no unit before
    [p] matches and [p] does, the record returned has [p] as its owning
    unit, the file handle [p] gives for the file and the full text of that
    handle, and the context is left as it was. An entry point matches by the unit's roots only, any
    other file by a membership that no external dependency contributes
    ([Matches]); so an entry point that an earlier unit merely contains is
    served by the unit it roots. *)
Theorem existing_unit_search_first_match (ctx : Ctx) (g : Tracker)
    (fileName code : string) (before after : list ts.Program) (p : ts.Program) :
  programs ctx = before ++ p :: after ->
  (forall q, In q before -> ~ Matches ctx fileName q) ->
  Matches ctx fileName p ->
  getModule ctx g fileName code
  = (Some {| ResolvedModule.code :=
               option_map ts.getFullText (ts.getSourceFile p fileName);
             ResolvedModule.source := ts.getSourceFile p fileName;
             ResolvedModule.program := Some p |},
     ctx, leave (enter g fileName)).
Proof.
  intros Hpool Hbefore Hp.
  change (getModule ctx g fileName code
          = (Some (fromProgram p fileName), ctx, leave (enter g fileName))).
  apply getModule_existing. rewrite Hpool.
  apply find_first.
  - intros q Hq. specialize (Hbefore q Hq). rewrite <- ownsFile_Matches in Hbefore.
    now destruct (ownsFile _ fileName q).
  - now apply ownsFile_Matches.
Qed.


Lemma getModule_external_member (ctx : Ctx) (g : Tracker) (fileName code : string) :
  DTS_EXTENSIONS fileName = true ->
  (exists p, In p (programs ctx) /\ ExternalMember fileName p) ->
  snd (fst (getModule ctx g fileName code)) = ctx
  /\ ((forall p, In p (programs ctx) -> ~ Matches ctx fileName p) ->
      fileExists fileName = true ->
      fst (fst (getModule ctx g fileName code))
      = Some {| ResolvedModule.code := Some code;
                ResolvedModule.source := None;
                ResolvedModule.program := None |}).
Proof.
  intros Hdts [p [Hp Hext]].
  assert (Hlen : 0 < length (programs ctx))
    by (destruct (programs ctx); [contradiction | simpl; lia]).
  assert (Hfast : (length (programs ctx) =? 0) && DTS_EXTENSIONS fileName = false).
  { apply andb_false_iff. left. apply Nat.eqb_neq. lia. }
  assert (Hsome : (0 <? length (programs ctx)) && DTS_EXTENSIONS fileName
                  && existsb (hasExternal fileName) (programs ctx) = true).
  { rewrite Hdts, andb_true_r. apply andb_true_iff. split.
    - now apply Nat.ltb_lt.
    - apply existsb_exists. exists p. split; [assumption |].
      now apply hasExternal_ExternalMember. }
  destruct (find (ownsFile (includes (entries ctx) fileName) fileName)
                 (programs ctx)) as [q |] eqn:Hfind.
  - rewrite (getModule_existing _ _ _ _ _ Hfind). simpl. split; [reflexivity |].
    intros Hno. apply no_match_iff in Hno. congruence.
  - rewrite (getModule_no_match _ _ _ _ Hfast Hfind), Hsome.
    destruct (fileExists fileName); simpl; split; trivial; discriminate.
Qed.

(** C3. Requests for declaration files that some unit of the pool holds as
    members contributed by an external dependency leave the context as it
    was, however many they are; and each of them that no unit matches and
    that exists on disk is answered with a record that holds the raw text
    as supplied, no file handle and no owning unit. *)
Theorem external_fast_path_no_growth (ctx : Ctx) (g : Tracker)
    (requests : list (string * string)) :
  Forall (fun request =>
            DTS_EXTENSIONS (fst request) = true
            /\ exists p, In p (programs ctx) /\ ExternalMember (fst request) p)
         requests ->
  snd (fst (resolveAll ctx g requests)) = ctx
  /\ Forall2 (fun request module =>
                (forall p, In p (programs ctx) -> ~ Matches ctx (fst request) p) ->
                fileExists (fst request) = true ->
                module = Some {| ResolvedModule.code := Some (snd request);
                                 ResolvedModule.source := None;
                                 ResolvedModule.program := None |})
             requests (fst (fst (resolveAll ctx g requests))).
Proof.
  intros Hall. revert g. induction Hall as [| [fileName code] rest [Hdts Hext] _ IH];
    intros g; simpl.
  - split; [reflexivity | constructor].
  - destruct (getModule_external_member ctx g fileName code Hdts Hext)
      as [Hctx Hraw].
    destruct (getModule ctx g fileName code) as [[module ctx1] g1].
    simpl in Hctx, Hraw. subst ctx1.
    specialize (IH g1).
    destruct (resolveAll ctx g1 rest) as [[modules ctx2] g2].
    simpl in *. destruct IH as [-> IH]. split; [reflexivity |].
    constructor; assumption.
Qed.

(** *** The empty pool *)

Lemma transform_declaration_empty_pool (ctx : Ctx) (g : Tracker) (code id : string) :
  programs ctx = [] -> DTS_EXTENSIONS id = true ->
  handleDtsFile ctx g code id
  = (returns (transformPlugin_transform (Some code) id) [], ctx, leave (enter g id)).
Proof.
  intros Hempty Hdts. unfold handleDtsFile.
  now rewrite (getModule_fast_path _ _ _ _ Hempty Hdts).
Qed.

Lemma transform_source_empty_pool (ctx : Ctx) (g : Tracker) (code id : string) :
  TransformAlwaysYields -> DeclarationIdIsDeclaration ->
  programs ctx = [] ->
  TS_EXTENSIONS id = true -> DTS_EXTENSIONS id = false -> JSON_EXTENSIONS id = false ->
  transform ctx g code id
  = (returns (transformPlugin_transform (Some code) (getDeclarationId id)) [],
     ctx, leave (enter g (getDeclarationId id))).
Proof.
  intros Hyields Hdecl Hempty Hts Hdts Hjson.
  unfold transform. rewrite Hts, Hdts, Hjson. simpl.
  unfold treatOrGenerate, treatTsAsDts.
  rewrite (getModule_fast_path _ _ _ _ Hempty (Hdecl id Hts)). simpl.
  destruct (transformPlugin_transform (Some code) (getDeclarationId id)) eqn:Hout.
  - reflexivity.
  - now apply Hyields in Hout.
Qed.

Lemma transform_keeps_empty_pool (ctx : Ctx) (g : Tracker) (code id : string) :
  TransformAlwaysYields -> DeclarationIdIsDeclaration ->
  programs ctx = [] ->
  (JSON_EXTENSIONS id = true -> DTS_EXTENSIONS id = true) ->
  snd (fst (transform ctx g code id)) = ctx.
Proof.
  intros Hyields Hdecl Hempty Hjson.
  destruct (DTS_EXTENSIONS id) eqn:Hdts.
  - unfold transform. rewrite Hdts.
    destruct (negb (TS_EXTENSIONS id) && negb (JSON_EXTENSIONS id));
      [reflexivity |].
    now rewrite (transform_declaration_empty_pool _ _ _ _ Hempty Hdts).
  - destruct (JSON_EXTENSIONS id) eqn:Hj; [now discriminate Hjson |].
    destruct (TS_EXTENSIONS id) eqn:Hts.
    + now rewrite transform_source_empty_pool.
    + unfold transform. now rewrite Hts, Hj.
Qed.


Lemma transformAll_keeps_empty_pool (ctx : Ctx) (g : Tracker)
    (requests : list (string * string)) :
  TransformAlwaysYields -> DeclarationIdIsDeclaration ->
  programs ctx = [] ->
  Forall (fun request =>
            JSON_EXTENSIONS (snd request) = true ->
            DTS_EXTENSIONS (snd request) = true) requests ->
  snd (fst (transformAll ctx g requests)) = ctx.
Proof.
  intros Hyields Hdecl Hempty Hall. revert g.
  induction Hall as [| [code id] rest Hjson _ IH]; intros g; simpl;
    [reflexivity |].
  pose proof (transform_keeps_empty_pool ctx g code id Hyields Hdecl Hempty Hjson)
    as Hctx.
  destruct (transform ctx g code id) as [[run ctx1] g1]. simpl in Hctx. subst ctx1.
  specialize (IH g1). now destruct (transformAll ctx g1 rest) as [[runs ctx2] g2].
Qed.

Lemma transform_json_empty_pool (ctx : Ctx) (g : Tracker) (code id : string) :
  programs ctx = [] ->
  JSON_EXTENSIONS id = true -> DTS_EXTENSIONS id = false ->
  fileExists id = true ->
  programs (snd (fst (transform ctx g code id)))
  = [createProgram id (compilerOptions (resolvedOptions ctx))
                   (tsconfig (resolvedOptions ctx))].
Proof.
  intros Hempty Hjson Hdts Hexists. unfold transform.
  rewrite Hjson, Hdts, andb_false_r. unfold generateDts.
  rewrite getModule_no_match;
    [| now rewrite Hdts, andb_false_r | now rewrite Hempty].
  rewrite Hexists, Hempty. simpl.
  destruct (ts.getSourceFile _ id) as [sourceFile |]; simpl; [| reflexivity].
  destruct (ts.emitSkipped _); [| reflexivity].
  now destruct (negb _).
Qed.

(** C4, with its session part restricted to requests for files other than
    JSON. Whenever the pool is empty, a request for a declaration-named file
    is answered with the raw text as supplied, without file handle and
    without owning unit, and the context is left as it was. A session that
    starts with an empty pool, as a session whose entry points are all
    declaration files is meant to, leaves the context as it was over every
    sequence of transform requests in which no JSON file is requested; a
    transform request for a JSON file that exists on disk pushes the program
    made for it onto the empty pool. *)
Theorem zero_program_fast_path (ctx : Ctx) (g : Tracker)
    (requests : list (string * string)) :
  TransformAlwaysYields -> DeclarationIdIsDeclaration ->
  programs ctx = [] ->
  Forall (fun request =>
            JSON_EXTENSIONS (snd request) = true ->
            DTS_EXTENSIONS (snd request) = true) requests ->
  (forall g' fileName code,
      DTS_EXTENSIONS fileName = true ->
      getModule ctx g' fileName code
      = (Some {| ResolvedModule.code := Some code;
                 ResolvedModule.source := None;
                 ResolvedModule.program := None |},
         ctx, leave (enter g' fileName)))
  /\ snd (fst (transformAll ctx g requests)) = ctx
  /\ (forall g' code id,
        JSON_EXTENSIONS id = true -> DTS_EXTENSIONS id = false ->
        fileExists id = true ->
        programs (snd (fst (transform ctx g' code id)))
        = [createProgram id (compilerOptions (resolvedOptions ctx))
                         (tsconfig (resolvedOptions ctx))]).
Proof.
  intros Hyields Hdecl Hempty Hrequests. split; [| split].
  - intros g' fileName code Hdts.
    now rewrite (getModule_fast_path ctx g' fileName code Hempty Hdts).
  - now apply transformAll_keeps_empty_pool.
  - intros g' code id. now apply transform_json_empty_pool.
Qed.

(** C10. With an empty pool the resolver does not look at the disk: a
    declaration-named identity is answered with the raw text on every host,
    whatever [fileExists] says of it. So every transform request for a source file is
    settled by treat-as-declaration, which forwards the source text as
    supplied under the derived declaration identity; each request costs one
    resolution and the context is left as it was, so generate-from-source is
    never reached. *)
Theorem empty_pool_never_generates (ctx : Ctx) (g : Tracker)
    (requests : list (string * string)) :
  TransformAlwaysYields -> DeclarationIdIsDeclaration ->
  programs ctx = [] ->
  Forall (fun request => isSourceFile (snd request) = true) requests ->
  (forall g' fileName code,
      DTS_EXTENSIONS fileName = true ->
      getModule ctx g' fileName code
      = (Some (codeOnly code), ctx, leave (enter g' fileName)))
  /\ fst (fst (transformAll ctx g requests))
     = map (fun request =>
              returns (transformPlugin_transform (Some (fst request))
                         (getDeclarationId (snd request))) [])
           requests
  /\ snd (fst (transformAll ctx g requests)) = ctx
  /\ resolutions g (snd (transformAll ctx g requests)) = length requests.
Proof.
  intros Hyields Hdecl Hempty Hall. split.
  { intros g' fileName code. now apply getModule_fast_path. }
  unfold resolutions.
  enough (Hgoal : fst (fst (transformAll ctx g requests))
                  = map (fun request =>
                           returns (transformPlugin_transform (Some (fst request))
                                      (getDeclarationId (snd request))) [])
                        requests
                  /\ snd (fst (transformAll ctx g requests)) = ctx
                  /\ totalGetModuleCalls (snd (transformAll ctx g requests))
                     = totalGetModuleCalls g + length requests)
    by (destruct Hgoal as [? [? ->]]; repeat split; trivial; lia).
  revert g. induction Hall as [| [code id] rest Hsrc _ IH]; intros g; simpl.
  - repeat split; lia.
  - unfold isSourceFile in Hsrc. simpl in Hsrc.
    apply andb_true_iff in Hsrc as [Hsrc Hjson].
    apply andb_true_iff in Hsrc as [Hts Hdts].
    apply negb_true_iff in Hdts, Hjson.
    rewrite (transform_source_empty_pool ctx g code id) by assumption.
    specialize (IH (leave (enter g (getDeclarationId id)))).
    destruct (transformAll ctx _ rest) as [[runs ctx2] g2]. simpl in *.
    destruct IH as [-> [-> ->]]. repeat split. lia.
Qed.


(** *** One unit per entry root *)








(** *** The transform decision machine *)

Lemma generateDts_tracker (ctx : Ctx) (g : Tracker) (code id : string) :
  snd (generateDts ctx g code id) = leave (enter g id).
Proof.
  unfold generateDts. pose proof (getModule_tracker ctx g id code) as Hg.
  destruct (getModule ctx g id code) as [[module ctx1] g1]. simpl in Hg. subst g1.
  destruct module as [module |]; [| reflexivity].
  destruct (ResolvedModule.source module), (ResolvedModule.program module);
    try reflexivity.
  destruct (ts.emitSkipped _); [| reflexivity].
  now destruct (negb _).
Qed.

Lemma isSourceFile_tests (id : string) :
  isSourceFile id = true ->
  TS_EXTENSIONS id = true /\ DTS_EXTENSIONS id = false /\ JSON_EXTENSIONS id = false.
Proof.
  unfold isSourceFile. intros Hsrc.
  apply andb_true_iff in Hsrc as [Hsrc Hjson].
  apply andb_true_iff in Hsrc as [Hts Hdts].
  apply negb_true_iff in Hdts, Hjson. auto.
Qed.

Lemma transform_source (ctx : Ctx) (g : Tracker) (code id : string) :
  isSourceFile id = true ->
  transform ctx g code id = treatOrGenerate ctx g code id.
Proof.
  intros Hsrc. apply isSourceFile_tests in Hsrc as [Hts [Hdts Hjson]].
  unfold transform. now rewrite Hts, Hdts, Hjson.
Qed.

Lemma run_eta (run : TransformRun) :
  {| outcome := outcome run;
     addWatchFile := [] ++ addWatchFile run;
     console_error := [] ++ console_error run |} = run.
Proof. now destruct run. Qed.

(** C5. For a source file the machine first resolves the derived
    declaration identity. When that resolution finds a module, its text is
    forwarded under the declaration identity and nothing else is resolved;
    when it reports not-found, and only then, the machine goes on to
    generate-from-source, which resolves the file's own identity next. *)
Theorem fallback_ordering (ctx : Ctx) (g : Tracker) (code id : string) :
  TransformAlwaysYields ->
  isSourceFile id = true ->
  let declarationId := getDeclarationId id in
  let first := getModule ctx g declarationId code in
  match fst (fst first) with
  | Some module =>
      transform ctx g code id
      = (returns (transformPlugin_transform (ResolvedModule.code module)
                    declarationId)
                 (watchFiles id module),
         snd (fst first), leave (enter g declarationId))
  | None =>
      transform ctx g code id
      = generateDts (snd (fst first)) (leave (enter g declarationId)) code id
      /\ snd (transform ctx g code id)
         = leave (enter (leave (enter g declarationId)) id)
  end.
Proof.
  intros Hyields Hsrc declarationId first. subst first declarationId.
  rewrite (transform_source _ _ _ _ Hsrc).
  unfold treatOrGenerate, treatTsAsDts.
  pose proof (getModule_tracker ctx g (getDeclarationId id) code) as Hg.
  destruct (getModule ctx g (getDeclarationId id) code) as [[module ctx1] g1].
  simpl in *. subst g1. destruct module as [module |]; simpl.
  - destruct (transformPlugin_transform (ResolvedModule.code module)
                                        (getDeclarationId id)) eqn:Hout.
    + reflexivity.
    + now apply Hyields in Hout.
  - pose proof (generateDts_tracker ctx1 (leave (enter g (getDeclarationId id)))
                                    code id) as Hg.
    destruct (generateDts ctx1 _ code id) as [[run ctx2] g2].
    simpl in *. now rewrite run_eta.
Qed.

(** C6. When the owning unit skips the emit of the requested file and its
    diagnostics include some of the error category, generate-from-source
    writes the formatted text of all those diagnostics to the error console
    and throws, so that nothing is returned for the file; when the emit is
    skipped without any diagnostic of the error category, nothing is logged
    and what the emit wrote is returned. *)
Theorem emit_skipped_is_fatal (ctx ctx' : Ctx) (g g' : Tracker) (code id : string)
    (module : ResolvedModule) (source : ts.SourceFile) (program : ts.Program) :
  getModule ctx g id code = (Some module, ctx', g') ->
  ResolvedModule.source module = Some source ->
  ResolvedModule.program module = Some program ->
  ts.emitSkipped (ts.emit program source) = true ->
  let errors :=
    filter (fun diag => ts.isError (ts.category diag))
           (ts.diagnostics (ts.emit program source)) in
  (errors <> [] ->
   generateDts ctx g code id
   = ({| outcome := Throw failedToCompile;
         addWatchFile := watchFiles id module;
         console_error := [formatDiagnostics errors] |}, ctx', g'))
  /\ (errors = [] ->
      generateDts ctx g code id
      = (returns (writeAll (getDeclarationId id)
                           (ts.written (ts.emit program source)))
                 (watchFiles id module), ctx', g')).
Proof.
  intros Hget Hsource Hprogram Hskipped errors. subst errors.
  unfold generateDts. rewrite Hget, Hsource, Hprogram, Hskipped.
  destruct (filter _ (ts.diagnostics (ts.emit program source))) as [| d ds];
    simpl; split; intros Herr; congruence.
Qed.

(** *** The import classifier *)

Lemma isIncluded_iff (ctx : Ctx) (m : ts.ResolvedModuleFull) :
  isIncluded ctx m = true
  <-> exists packageId,
        ts.packageId m = Some packageId
        /\ In (ts.name packageId) (includeExternal (resolvedOptions ctx)).
Proof.
  unfold isIncluded. destruct (ts.packageId m) as [pkg |].
  - rewrite includes_In. split.
    + intros Hin. now exists pkg.
    + intros [pkg' [Heq Hin]]. now injection Heq as ->.
  - split; [discriminate | intros [pkg' [Heq _]]; discriminate].
Qed.

(** C7. For an import with an importer, [resolveId] reports unresolved when
    module resolution fails. Otherwise, in this order: an external module
    whose package is listed for inclusion resolves to its absolute file
    identity; failing that, an external module is marked external when
    respect-external is off; failing that, the module resolves to its
    absolute file identity. The context is left as it was. *)
Theorem import_classifier_policy (ctx : Ctx) (source importer : string)
    (resolved : option ts.ResolvedModuleFull) :
  importer <> "" ->
  let normalized := replaceAll backslash "/" importer in
  resolveModuleName source normalized (resolvedCompilerOptions ctx source normalized)
  = resolved ->
  match resolved with
  | None => resolveId ctx source (Some importer) = (Unresolved, ctx)
  | Some m =>
      let absolute := Resolved (path_resolve [ts.resolvedFileName m]) false in
      let forced :=
        ts.isExternalLibraryImport m = true
        /\ exists packageId,
             ts.packageId m = Some packageId
             /\ In (ts.name packageId) (includeExternal (resolvedOptions ctx)) in
      (forced -> resolveId ctx source (Some importer) = (absolute, ctx))
      /\ (~ forced ->
          respectExternal (resolvedOptions ctx) = false ->
          ts.isExternalLibraryImport m = true ->
          resolveId ctx source (Some importer) = (Resolved source true, ctx))
      /\ (~ forced ->
          ~ (respectExternal (resolvedOptions ctx) = false
             /\ ts.isExternalLibraryImport m = true) ->
          resolveId ctx source (Some importer) = (absolute, ctx))
  end.
Proof.
  intros Hne normalized Hres. subst normalized.
  unfold resolveId. simpl. apply String.eqb_neq in Hne. rewrite Hne, Hres.
  destruct resolved as [m |]; [| reflexivity]. simpl.
  pose proof (isIncluded_iff ctx m) as Hinc.
  destruct (ts.isExternalLibraryImport m) eqn:Hext,
           (isIncluded ctx m) eqn:Hincl,
           (respectExternal (resolvedOptions ctx)) eqn:Hresp; simpl;
    repeat split; intros; trivial;
    try (exfalso; intuition congruence).
Qed.


(** *** Repeating a request *)

Lemma pool_not_empty_after_push (ctx : Ctx) (p : ts.Program) (fileName : string) :
  (length (programs (withPrograms ctx (programs ctx ++ [p]))) =? 0)
  && DTS_EXTENSIONS fileName = false.
Proof.
  simpl. rewrite length_app. simpl.
  replace (length (programs ctx) + 1 =? 0) with false
    by (symmetry; apply Nat.eqb_neq; lia).
  reflexivity.
Qed.

(** Asking again for the file just resolved gives the same module. *)
Lemma getModule_again (ctx : Ctx) (g g' : Tracker) (fileName code : string) :
  CreatedProgramOwnsItsFile ->
  let first := getModule ctx g fileName code in
  fst (fst (getModule (snd (fst first)) g' fileName code)) = fst (fst first).
Proof.
  intros Howns first. subst first.
  destruct ((length (programs ctx) =? 0) && DTS_EXTENSIONS fileName) eqn:Hfast.
  { pose proof Hfast as Hfast'. apply fast_path_iff in Hfast' as [Hempty Hdts].
    rewrite (getModule_fast_path ctx g _ _ Hempty Hdts). simpl.
    now rewrite getModule_fast_path. }
  destruct (find (ownsFile (includes (entries ctx) fileName) fileName)
                 (programs ctx)) as [p |] eqn:Hfind.
  { rewrite (getModule_existing ctx g _ _ _ Hfind). simpl.
    now rewrite (getModule_existing ctx g' _ _ _ Hfind). }
  rewrite (getModule_no_match ctx g _ _ Hfast Hfind).
  pose proof (getModule_no_match ctx g' _ code Hfast Hfind) as Hsecond.
  destruct (fileExists fileName) eqn:Hexists;
    [| cbn [fst snd]; now rewrite Hsecond].
  destruct ((0 <? length (programs ctx)) && DTS_EXTENSIONS fileName
            && existsb (hasExternal fileName) (programs ctx)) eqn:Hraw;
    [cbn [fst snd]; now rewrite Hsecond |].
  cbn [fst snd]. clear Hsecond.
  set (newProgram := createProgram fileName _ _).
  set (ctx1 := withPrograms ctx (programs ctx ++ [newProgram])).
  assert (Hfind1 :
            find (ownsFile (includes (entries ctx1) fileName) fileName)
                 (programs ctx1)
            = if ownsFile (includes (entries ctx) fileName) fileName newProgram
              then Some newProgram else None)
    by (simpl; now rewrite (find_none_app _ _ _ Hfind)).
  destruct (ownsFile (includes (entries ctx) fileName) fileName newProgram)
    eqn:Hown.
  - now rewrite (getModule_existing ctx1 g' _ _ _ Hfind1).
  - rewrite (getModule_no_match ctx1 g' fileName code
               (pool_not_empty_after_push ctx newProgram fileName) Hfind1).
    rewrite Hexists.
    destruct (DTS_EXTENSIONS fileName) eqn:Hdts.
    + subst newProgram. rewrite Howns in Hown by assumption. discriminate.
    + rewrite andb_false_r. reflexivity.
Qed.

(** A file that was not found stays not found after a unit is made for
    another file that exists on disk. *)
Lemma getModule_still_not_found (ctx : Ctx) (g g' g2 : Tracker)
    (missing other code : string) :
  CreatedProgramReadsDisk ->
  fst (fst (getModule ctx g missing code)) = None ->
  let ctx' := snd (fst (getModule ctx g' other code)) in
  getModule ctx' g2 missing code = (None, ctx', leave (enter g2 missing)).
Proof.
  intros Hdisk Hnone ctx'. subst ctx'.
  destruct (getModule_not_found_inv ctx g missing code Hnone)
    as [Hfast' [Hno Hmissing]].
  assert (Hsame : getModule ctx g2 missing code = (None, ctx, leave (enter g2 missing))).
  { rewrite (getModule_no_match _ _ _ _ Hfast' Hno). now rewrite Hmissing. }
  destruct ((length (programs ctx) =? 0) && DTS_EXTENSIONS other) eqn:Hfo.
  { pose proof Hfo as Hfo'. apply fast_path_iff in Hfo' as [Hempty Hdts].
    now rewrite (getModule_fast_path ctx g' _ _ Hempty Hdts). }
  destruct (find (ownsFile (includes (entries ctx) other) other) (programs ctx))
    as [p |] eqn:Hfind.
  { now rewrite (getModule_existing ctx g' _ _ _ Hfind). }
  rewrite (getModule_no_match ctx g' _ _ Hfo Hfind).
  destruct (fileExists other) eqn:Hexists; [| exact Hsame].
  destruct ((0 <? length (programs ctx)) && DTS_EXTENSIONS other
            && existsb (hasExternal other) (programs ctx)); [exact Hsame |].
  simpl. rewrite getModule_no_match.
  - now rewrite Hmissing.
  - apply pool_not_empty_after_push.
  - simpl. rewrite (find_none_app _ _ _ Hno).
    destruct (ownsFile _ missing _) eqn:Hown; [| reflexivity].
    apply Hdisk in Hown; [congruence | assumption].
Qed.

Lemma handleDtsFile_run (ctx ctx' : Ctx) (g g' : Tracker) (code id : string) :
  fst (fst (getModule ctx g id code)) = fst (fst (getModule ctx' g' id code)) ->
  fst (fst (handleDtsFile ctx g code id)) = fst (fst (handleDtsFile ctx' g' code id)).
Proof.
  unfold handleDtsFile.
  destruct (getModule ctx g id code) as [[m1 c1] g1].
  destruct (getModule ctx' g' id code) as [[m2 c2] g2].
  simpl. intros ->. now destruct m2.
Qed.

Lemma generateDts_run (ctx ctx' : Ctx) (g g' : Tracker) (code id : string) :
  fst (fst (getModule ctx g id code)) = fst (fst (getModule ctx' g' id code)) ->
  fst (fst (generateDts ctx g code id)) = fst (fst (generateDts ctx' g' code id)).
Proof.
  unfold generateDts.
  destruct (getModule ctx g id code) as [[m1 c1] g1].
  destruct (getModule ctx' g' id code) as [[m2 c2] g2].
  simpl. intros ->. destruct m2 as [module |]; [| reflexivity].
  destruct (ResolvedModule.source module), (ResolvedModule.program module);
    try reflexivity.
  destruct (ts.emitSkipped _); [| reflexivity].
  now destruct (negb _).
Qed.

Lemma generateDts_ctx (ctx : Ctx) (g : Tracker) (code id : string) :
  snd (fst (generateDts ctx g code id)) = snd (fst (getModule ctx g id code)).
Proof.
  unfold generateDts.
  destruct (getModule ctx g id code) as [[m1 c1] g1]. simpl.
  destruct m1 as [module |]; [| reflexivity].
  destruct (ResolvedModule.source module), (ResolvedModule.program module);
    try reflexivity.
  destruct (ts.emitSkipped _); [| reflexivity].
  now destruct (negb _).
Qed.

Lemma handleDtsFile_ctx (ctx : Ctx) (g : Tracker) (code id : string) :
  snd (fst (handleDtsFile ctx g code id)) = snd (fst (getModule ctx g id code)).
Proof.
  unfold handleDtsFile.
  destruct (getModule ctx g id code) as [[m1 c1] g1]. simpl. now destruct m1.
Qed.


Lemma getModule_not_found_ctx (ctx : Ctx) (g : Tracker) (fileName code : string) :
  fst (fst (getModule ctx g fileName code)) = None ->
  snd (fst (getModule ctx g fileName code)) = ctx.
Proof.
  unfold getModule.
  repeat match goal with
         | |- context [if ?b then _ else _] => destruct b
         | |- context [match ?o with Some _ => _ | None => _ end] => destruct o
         end; simpl; trivial; discriminate.
Qed.

Lemma treatOrGenerate_found (ctx : Ctx) (g : Tracker) (code id : string)
    (module : ResolvedModule) :
  TransformAlwaysYields ->
  fst (fst (getModule ctx g (getDeclarationId id) code)) = Some module ->
  treatOrGenerate ctx g code id
  = (returns (transformPlugin_transform (ResolvedModule.code module)
                (getDeclarationId id))
             (watchFiles id module),
     snd (fst (getModule ctx g (getDeclarationId id) code)),
     leave (enter g (getDeclarationId id))).
Proof.
  intros Hyields Hfound. unfold treatOrGenerate, treatTsAsDts.
  pose proof (getModule_tracker ctx g (getDeclarationId id) code) as Hg.
  destruct (getModule ctx g (getDeclarationId id) code) as [[m ctx1] g1].
  simpl in *. subst m g1. simpl.
  destruct (transformPlugin_transform _ _) eqn:Hout; [reflexivity |].
  now apply Hyields in Hout.
Qed.

Lemma treatOrGenerate_not_found (ctx : Ctx) (g : Tracker) (code id : string) :
  fst (fst (getModule ctx g (getDeclarationId id) code)) = None ->
  treatOrGenerate ctx g code id
  = generateDts ctx (leave (enter g (getDeclarationId id))) code id.
Proof.
  intros Hnone. unfold treatOrGenerate, treatTsAsDts.
  pose proof (getModule_tracker ctx g (getDeclarationId id) code) as Hg.
  pose proof (getModule_not_found_ctx ctx g _ code Hnone) as Hctx.
  destruct (getModule ctx g (getDeclarationId id) code) as [[m ctx1] g1].
  simpl in *. subst m g1 ctx1. simpl.
  destruct (generateDts ctx _ code id) as [[run ctx2] g2].
  now rewrite run_eta.
Qed.

(** C9. Running the transform hook a second time on the same identity and
    raw text, from the context and counters the first run left, gives the
    same run: the same returned value or thrown error, the same watch files
    and the same console output, whether or not the first run pushed a
    program on the pool. *)
Theorem transform_idempotent (ctx : Ctx) (g : Tracker) (code id : string) :
  TransformAlwaysYields ->
  CreatedProgramOwnsItsFile ->
  CreatedProgramReadsDisk ->
  let first := transform ctx g code id in
  let second := transform (snd (fst first)) (snd first) code id in
  fst (fst second) = fst (fst first).
Proof.
  intros Hyields Howns Hdisk first second. subst second first.
  unfold transform.
  destruct (negb (TS_EXTENSIONS id) && negb (JSON_EXTENSIONS id)); [reflexivity |].
  destruct (DTS_EXTENSIONS id).
  { apply handleDtsFile_run. rewrite handleDtsFile_ctx.
    now apply getModule_again. }
  destruct (JSON_EXTENSIONS id).
  { apply generateDts_run. rewrite generateDts_ctx.
    now apply getModule_again. }
  destruct (fst (fst (getModule ctx g (getDeclarationId id) code)))
    as [module |] eqn:Hfirst.
  - rewrite (treatOrGenerate_found ctx g code id module Hyields Hfirst). simpl.
    erewrite treatOrGenerate_found; [reflexivity | assumption |].
    rewrite <- Hfirst. now apply getModule_again.
  - rewrite (treatOrGenerate_not_found ctx g code id Hfirst).
    set (g1 := leave (enter g (getDeclarationId id))).
    rewrite treatOrGenerate_not_found.
    + apply generateDts_run. rewrite generateDts_ctx.
      now apply getModule_again.
    + rewrite generateDts_ctx.
      now rewrite (getModule_still_not_found ctx g g1 _ _ id code Hdisk Hfirst).
Qed.


End Properties.

(** ** The properties on the concrete project *)

Module DemoFacts.

Import Demo.

Lemma substring_whole (b : string) : substring 0 (String.length b) b = b.
Proof. induction b as [| c b IH]; simpl; [reflexivity | now rewrite IH]. Qed.

Lemma substring_append_suffix (a b : string) :
  substring (String.length a) (String.length b) (String.append a b) = b.
Proof.
  induction a as [| c a IH]; simpl; [apply substring_whole | exact IH].
Qed.

Lemma length_append (a b : string) :
  String.length (String.append a b) = String.length a + String.length b.
Proof. induction a as [| c a IH]; simpl; [reflexivity | now rewrite IH]. Qed.

Lemma endsWith_append (a b : string) : endsWith (String.append a b) b = true.
Proof.
  unfold endsWith. rewrite length_append.
  replace (String.length a + String.length b - String.length b)
    with (String.length a) by lia.
  rewrite substring_append_suffix, String.eqb_refl.
  apply andb_true_iff. split; [apply Nat.leb_le; lia | reflexivity].
Qed.

Lemma yields : TransformAlwaysYields.
Proof. intros code id. discriminate. Qed.

Lemma declaration_ids : DeclarationIdIsDeclaration.
Proof. intros id _. apply endsWith_append. Qed.

Lemma programFor_owns (isEntry : bool) (fileName : string) :
  ownsFile isEntry fileName (programFor fileName) = true.
Proof.
  destruct isEntry; simpl.
  - unfold includes. simpl. now rewrite String.eqb_refl.
  - rewrite String.eqb_refl. simpl. now rewrite String.eqb_refl.
Qed.

Lemma programFor_owns_only (isEntry : bool) (fileName other : string) :
  ownsFile isEntry other (programFor fileName) = true -> other = fileName.
Proof.
  destruct isEntry; simpl.
  - unfold includes. simpl. rewrite orb_false_r. apply String.eqb_eq.
  - destruct (String.eqb fileName other) eqn:Heq; [| discriminate].
    apply String.eqb_eq in Heq. congruence.
Qed.


Lemma owns : CreatedProgramOwnsItsFile.
Proof. intros fileName options tsconfigPath isEntry _ _. apply programFor_owns. Qed.

Lemma reads_disk : CreatedProgramReadsDisk.
Proof.
  intros fileName options tsconfigPath isEntry other Hexists Hown.
  apply programFor_owns_only in Hown. now subst.
Qed.

End DemoFacts.


(** *** The properties at work *)

#[local] Existing Instance Demo.host.

Example index_rooted_once :
  creations Demo.unrooted emptyTracker
    [("/src/index.ts", "a"); ("/src/util.ts", "b"); ("/src/index.ts", "a");
     ("/src/types.d.ts", "c"); ("/src/index.ts", "a")]
  = ["/src/index.ts"; "/src/types.d.ts"].
Proof. vm_compute. reflexivity. Qed.


(** The util file is a member of the index unit, and an entry point. *)
Example util_is_member_of_index_unit :
  ownsFile false "/src/util.ts" Demo.indexProgram = true
  /\ ownsFile true "/src/util.ts" Demo.indexProgram = false
  /\ includes (entries Demo.twoEntries) "/src/util.ts" = true.
Proof. repeat split. Qed.

Lemma existing_unit_search_first_match_witness :
  getModule Demo.twoEntries emptyTracker "/src/util.ts" "raw"
  = (Some {| ResolvedModule.code := Some "export const u = 1;";
             ResolvedModule.source :=
               Some {| ts.fileName := "/src/util.ts";
                       ts.getFullText := "export const u = 1;" |};
             ResolvedModule.program := Some Demo.utilProgram |},
     Demo.twoEntries, leave (enter emptyTracker "/src/util.ts")).
Proof.
  apply (existing_unit_search_first_match Demo.twoEntries emptyTracker
           "/src/util.ts" "raw" [Demo.indexProgram] [] Demo.utilProgram).
  - reflexivity.
  - intros q [<- | []] [[_ Hroot] | [Hentry _]].
    + destruct Hroot as [Heq | []]. discriminate Heq.
    + apply Hentry. simpl. auto.
  - left. simpl. auto.
Defined.

Lemma external_fast_path_no_growth_witness :
  snd (fst (resolveAll Demo.project emptyTracker
              [("/node_modules/lib/index.d.ts", "x");
               ("/node_modules/lib/extra.d.ts", "y")]))
  = Demo.project
  /\ Forall2 (fun request module =>
                (forall p, In p (programs Demo.project) ->
                           ~ Matches Demo.project (fst request) p) ->
                fileExists (fst request) = true ->
                module = Some {| ResolvedModule.code := Some (snd request);
                                 ResolvedModule.source := None;
                                 ResolvedModule.program := None |})
             [("/node_modules/lib/index.d.ts", "x");
              ("/node_modules/lib/extra.d.ts", "y")]
             (fst (fst (resolveAll Demo.project emptyTracker
                          [("/node_modules/lib/index.d.ts", "x");
                           ("/node_modules/lib/extra.d.ts", "y")]))).
Proof.
  apply (external_fast_path_no_growth Demo.project emptyTracker).
  repeat constructor; simpl;
    (exists Demo.indexProgram; split; [now left |]);
    eexists; split; reflexivity.
Defined.

Example external_files_get_raw_text :
  map (option_map ResolvedModule.code)
      (fst (fst (resolveAll Demo.project emptyTracker
                   [("/node_modules/lib/index.d.ts", "x");
                    ("/node_modules/lib/extra.d.ts", "y")])))
  = [Some (Some "x"); Some (Some "y")].
Proof. vm_compute. reflexivity. Qed.


(** A declaration-only session that meets a JSON import: the pool grows. *)
Lemma declaration_session_with_json_grows_pool :
  entries Demo.declarationSession = ["/src/index.d.ts"]
  /\ forallb DTS_EXTENSIONS (entries Demo.declarationSession) = true
  /\ programs Demo.declarationSession = []
  /\ programs (snd (fst (transformAll Demo.declarationSession emptyTracker
                           Demo.jsonRequests)))
     <> [].
Proof.
  repeat split. intros Hempty. apply (f_equal (@length _)) in Hempty.
  vm_compute in Hempty. discriminate Hempty.
Qed.

Example json_request_creates_unit :
  map ts.getRootFileNames
      (programs (snd (fst (transformAll Demo.declarationSession emptyTracker
                             Demo.jsonRequests))))
  = [["/src/data.json"]].
Proof. vm_compute. reflexivity. Qed.

Lemma zero_program_fast_path_witness :
  snd (fst (transformAll Demo.fresh emptyTracker
              [("export * from './util';", "/src/index.d.ts");
               ("export const u = 1;", "/src/util.ts");
               ("# readme", "/src/readme.md")]))
  = Demo.fresh
  /\ getModule Demo.fresh emptyTracker "/src/index.d.ts" "export {};"
     = (Some {| ResolvedModule.code := Some "export {};";
                ResolvedModule.source := None;
                ResolvedModule.program := None |},
        Demo.fresh, leave (enter emptyTracker "/src/index.d.ts"))
  /\ programs (snd (fst (transform Demo.fresh emptyTracker "{}" "/src/data.json")))
     = [Demo.programFor "/src/data.json"].
Proof.
  destruct (zero_program_fast_path Demo.fresh emptyTracker
              [("export * from './util';", "/src/index.d.ts");
               ("export const u = 1;", "/src/util.ts");
               ("# readme", "/src/readme.md")]
              DemoFacts.yields DemoFacts.declaration_ids eq_refl)
    as [Hraw [Hsession Hjson]].
  - repeat constructor; simpl; discriminate.
  - split; [exact Hsession | split].
    + apply Hraw. reflexivity.
    + apply Hjson; reflexivity.
Defined.

Lemma empty_pool_never_generates_witness :
  fst (fst (transformAll Demo.fresh emptyTracker
              [("export const u = 1;", "/src/util.ts");
               ("export const g = 2;", "/src/ghost.ts")]))
  = [ returns (Some (Some "export const u = 1;", "/src/util.d.ts")) [];
      returns (Some (Some "export const g = 2;", "/src/ghost.d.ts")) [] ]
  /\ snd (fst (transformAll Demo.fresh emptyTracker
                 [("export const u = 1;", "/src/util.ts");
                  ("export const g = 2;", "/src/ghost.ts")]))
     = Demo.fresh
  /\ resolutions emptyTracker
       (snd (transformAll Demo.fresh emptyTracker
               [("export const u = 1;", "/src/util.ts");
                ("export const g = 2;", "/src/ghost.ts")]))
     = 2.
Proof.
  apply (empty_pool_never_generates Demo.fresh emptyTracker
           [("export const u = 1;", "/src/util.ts");
            ("export const g = 2;", "/src/ghost.ts")]
           DemoFacts.yields DemoFacts.declaration_ids eq_refl).
  repeat constructor.
Defined.

Example ghost_is_not_on_disk :
  fileExists "/src/ghost.ts" = false /\ fileExists "/src/ghost.d.ts" = false.
Proof. split; reflexivity. Qed.

Lemma fallback_ordering_witness :
  transform Demo.project emptyTracker "export const u = 1;" "/src/util.ts"
  = generateDts Demo.project (leave (enter emptyTracker "/src/util.d.ts"))
                "export const u = 1;" "/src/util.ts"
  /\ snd (transform Demo.project emptyTracker "export const u = 1;" "/src/util.ts")
     = leave (enter (leave (enter emptyTracker "/src/util.d.ts")) "/src/util.ts").
Proof.
  exact (fallback_ordering Demo.project emptyTracker "export const u = 1;"
           "/src/util.ts" DemoFacts.yields eq_refl).
Defined.

Example fallback_found :
  fst (fst (transform Demo.project emptyTracker "export {};" "/src/index.ts"))
  = returns (Some (Some "text of /src/index.d.ts", "/src/index.d.ts"))
            ["/src/index.d.ts"]
  /\ resolutions emptyTracker
       (snd (transform Demo.project emptyTracker "export {};" "/src/index.ts"))
     = 1.
Proof. split; vm_compute; reflexivity. Qed.

Lemma emit_skipped_is_fatal_witness :
  generateDts Demo.project emptyTracker "let n: number = 'x';" "/src/broken.ts"
  = ({| outcome := Throw failedToCompile;
        addWatchFile := ["/src/broken.ts"];
        console_error := ["Type 'string' is not assignable to type 'number'."] |},
     withPrograms Demo.project
       (programs Demo.project ++ [Demo.programFor "/src/broken.ts"]),
     leave (enter emptyTracker "/src/broken.ts")).
Proof.
  refine (proj1 (emit_skipped_is_fatal Demo.project _ emptyTracker _
                   "let n: number = 'x';" "/src/broken.ts"
                   (fromProgram (Demo.programFor "/src/broken.ts") "/src/broken.ts")
                   _ (Demo.programFor "/src/broken.ts")
                   eq_refl eq_refl eq_refl eq_refl) _).
  discriminate.
Defined.

Lemma import_classifier_policy_witness :
  resolveId Demo.project "lib" (Some "C:\src\index.ts")
  = (Resolved "lib" true, Demo.project).
Proof.
  destruct (import_classifier_policy Demo.project "lib" "C:\src\index.ts"
              (Some {| ts.resolvedFileName := "/node_modules/lib/index.d.ts";
                       ts.isExternalLibraryImport := true;
                       ts.packageId := Some {| ts.name := "lib" |} |}))
    as [_ [Hexternal _]].
  - discriminate.
  - reflexivity.
  - apply Hexternal; [| reflexivity | reflexivity].
    intros [_ [packageId [_ Hlisted]]]. exact Hlisted.
Defined.

Lemma transform_idempotent_witness :
  fst (fst (transform
              (snd (fst (transform Demo.project emptyTracker "export {};"
                                   "/src/types.d.ts")))
              (snd (transform Demo.project emptyTracker "export {};"
                              "/src/types.d.ts"))
              "export {};" "/src/types.d.ts"))
  = fst (fst (transform Demo.project emptyTracker "export {};" "/src/types.d.ts")).
Proof.
  exact (transform_idempotent Demo.project emptyTracker "export {};"
           "/src/types.d.ts" DemoFacts.yields DemoFacts.owns DemoFacts.reads_disk).
Defined.

Example first_transform_grows_pool :
  length (programs Demo.project) = 1
  /\ length (programs (snd (fst (transform Demo.project emptyTracker "export {};"
                                           "/src/types.d.ts")))) = 2.
Proof. split; vm_compute; reflexivity. Qed.

(** ** Further properties of the hooks *)

Section StringPrimitives.

(** *** Paths and extensions *)

Lemma split_not_empty (sep : ascii) (s : string) : split sep s <> [].
Proof.
  induction s as [| c s IH]; simpl; [discriminate |].
  destruct (Ascii.eqb c sep); [discriminate |].
  destruct (split sep s); [contradiction | discriminate].
Qed.

(** [s.split(sep).join(sep)] gives [s] back. *)
Lemma join_split (sep : ascii) (s : string) :
  join (String sep EmptyString) (split sep s) = s.
Proof.
  induction s as [| c s IH]; [reflexivity |]. simpl.
  destruct (Ascii.eqb c sep) eqn:Hc.
  - apply Ascii.eqb_eq in Hc. subst c.
    pose proof (split_not_empty sep s) as Hne. unfold join in *. simpl.
    destruct (split sep s) as [| h t]; [contradiction |]. simpl in *.
    now rewrite IH.
  - pose proof (split_not_empty sep s) as Hne. unfold join in *.
    destruct (split sep s) as [| h t]; [contradiction |]. simpl in *.
    destruct t; simpl in *; now rewrite <- IH.
Qed.

Lemma append_assoc (a b c : string) :
  String.append (String.append a b) c = String.append a (String.append b c).
Proof.
  induction a as [| x a IH]; [reflexivity |].
  change (String x (String.append (String.append a b) c)
          = String x (String.append a (String.append b c))).
  now rewrite IH.
Qed.

Lemma concat_app (sep : string) (l1 l2 : list string) :
  l1 <> [] -> l2 <> [] ->
  String.concat sep (l1 ++ l2)
  = String.append (String.concat sep l1)
      (String.append sep (String.concat sep l2)).
Proof.
  intros H1 H2. induction l1 as [| x l1 IH]; [contradiction |].
  destruct l1 as [| y l1].
  - simpl. destruct l2; [contradiction | reflexivity].
  - change (String.concat sep ((x :: y :: l1) ++ l2))
      with (String.append x (String.append sep (String.concat sep ((y :: l1) ++ l2)))).
    rewrite IH by discriminate.
    change (String.concat sep (x :: y :: l1))
      with (String.append x (String.append sep (String.concat sep (y :: l1)))).
    now rewrite !append_assoc.
Qed.

Lemma sliceLast_all {A} (n : nat) (l : list A) : length l <= n -> sliceLast n l = l.
Proof.
  intros Hle. unfold sliceLast. now replace (length l - n) with 0 by lia.
Qed.

Lemma sliceLast_length {A} (n : nat) (l : list A) : length (sliceLast n l) <= n.
Proof. unfold sliceLast. rewrite length_skipn. lia. Qed.

Lemma substring_cut (s : string) (k : nat) :
  k <= String.length s ->
  s = String.append (substring 0 k s) (substring k (String.length s - k) s).
Proof.
  revert k. induction s as [| c s IH]; intros k Hk; simpl in Hk.
  - replace k with 0 by lia. reflexivity.
  - destruct k as [| k].
    + change (String c s
              = String.append EmptyString
                  (substring 0 (String.length (String c s)) (String c s))).
      now rewrite DemoFacts.substring_whole.
    + change (String c s
              = String c (String.append (substring 0 k s)
                            (substring k (String.length s - k) s))).
      f_equal. apply IH. lia.
Qed.

Lemma endsWith_iff (s suffix : string) :
  endsWith s suffix = true <-> exists stem, s = String.append stem suffix.
Proof.
  split.
  - unfold endsWith. intros Hends. apply andb_true_iff in Hends as [Hle Heq].
    apply Nat.leb_le in Hle. apply String.eqb_eq in Heq.
    exists (substring 0 (String.length s - String.length suffix) s).
    pose proof (substring_cut s (String.length s - String.length suffix))
      as Hcut.
    replace (String.length s - (String.length s - String.length suffix))
      with (String.length suffix) in Hcut by lia.
    rewrite Heq in Hcut. apply Hcut. lia.
  - intros [stem ->]. apply DemoFacts.endsWith_append.
Qed.

(** X1. [TS_EXTENSIONS.test(id)] holds exactly of the names that end in one
    of [.cts], [.mts], [.ts], [.tsx], [.js], [.jsx]; in particular of every
    name that ends in [.d.ts]. *)
Theorem TS_EXTENSIONS_suffixes (id : string) :
  (TS_EXTENSIONS id = true
   <-> exists stem ext,
         In ext [".cts"; ".mts"; ".ts"; ".tsx"; ".js"; ".jsx"]
         /\ id = String.append stem ext)
  /\ (forall stem, TS_EXTENSIONS (String.append stem ".d.ts") = true).
Proof.
  assert (Hiff : TS_EXTENSIONS id = true
                 <-> exists stem ext,
                       In ext [".cts"; ".mts"; ".ts"; ".tsx"; ".js"; ".jsx"]
                       /\ id = String.append stem ext).
  { unfold TS_EXTENSIONS. rewrite existsb_exists. split.
    - intros [ext [Hin Hends]]. apply endsWith_iff in Hends as [stem ->].
      now exists stem, ext.
    - intros [stem [ext [Hin ->]]]. exists ext. split; [assumption |].
      apply DemoFacts.endsWith_append. }
  split; [exact Hiff |].
  intros stem. unfold TS_EXTENSIONS. apply existsb_exists. exists ".ts".
  split; [simpl; auto |]. apply endsWith_iff.
  exists (String.append stem ".d"). now rewrite append_assoc.
Qed.

(** X2. The short path of the debug lines is the end of the file name, and
    the file name itself when it has at most three segments. *)
Theorem shortPath_is_suffix (fileName : string) :
  (exists prefix, fileName = String.append prefix (shortPath fileName))
  /\ (length (split "/" fileName) <= 3 -> shortPath fileName = fileName).
Proof.
  pose proof (join_split "/" fileName) as Hjoin.
  pose proof (split_not_empty "/" fileName) as Hne.
  split.
  - unfold shortPath, sliceLast.
    set (l := split "/" fileName) in *.
    set (k := length l - 3).
    destruct (firstn k l) as [| x front] eqn:Hfront.
    + exists EmptyString. rewrite <- (firstn_skipn k l) in Hjoin at 1.
      rewrite Hfront in Hjoin. simpl in Hjoin. now rewrite Hjoin.
    + exists (String.append (join "/" (x :: front)) "/").
      rewrite append_assoc. unfold join in *.
      rewrite <- concat_app.
      * rewrite <- Hfront, firstn_skipn. now rewrite Hjoin.
      * discriminate.
      * intros Hskip. apply (f_equal (@length _)) in Hskip.
        rewrite length_skipn in Hskip. simpl in Hskip.
        destruct l; [contradiction |]. subst k. simpl in Hskip. lia.
  - intros Hshort. unfold shortPath. now rewrite sliceLast_all.
Qed.

Lemma shortPath_is_suffix_witness :
  length (split "/" "src/index.ts") <= 3
  /\ shortPath "src/index.ts" = "src/index.ts".
Proof.
  split; [simpl; lia |].
  apply (proj2 (shortPath_is_suffix "src/index.ts")). simpl. lia.
Defined.

Example shortPath_examples :
  map shortPath ["/home/me/project/src/index.ts"; "index.ts"; ""; "a//b/"]
  = ["project/src/index.ts"; "index.ts"; ""; "/b/"].
Proof. reflexivity. Qed.


End StringPrimitives.

Section HookProperties.

Context `{Host}.

Local Abbreviation Ctx := DtsPluginContext.

(** *** The import classifier *)

Lemma replaceAll_clean (a b : ascii) (s : string) :
  a <> b -> ~ In a (list_ascii_of_string (replaceAll a b s)).
Proof.
  intros Hab. induction s as [| c s IH]; simpl; [tauto |].
  intros [Heq | Hin]; [| contradiction].
  destruct (Ascii.eqb c a) eqn:Hc; [congruence |].
  apply Ascii.eqb_neq in Hc. congruence.
Qed.

Lemma replaceAll_idempotent (a b : ascii) (s : string) :
  replaceAll a b (replaceAll a b s) = replaceAll a b s.
Proof.
  induction s as [| c s IH]; simpl; [reflexivity |]. rewrite IH. f_equal.
  destruct (Ascii.eqb c a) eqn:Hc; [| now rewrite Hc].
  destruct (Ascii.eqb b a) eqn:Hb; [| reflexivity].
  now apply Ascii.eqb_eq in Hb.
Qed.

Lemma replaceAll_empty (a b : ascii) (s : string) :
  replaceAll a b s = "" <-> s = "".
Proof. destruct s; simpl; split; congruence. Qed.

(** X3. [resolveId] sees the importer only through its normal form: the
    importer it resolves against has no backslash, and a request gives the
    same answer and context whether the importer is spelled with
    backslashes or with the forward slashes that replace them. *)
Theorem resolveId_importer_separators (ctx : Ctx) (source importer : string) :
  let normalized := replaceAll backslash "/" importer in
  ~ In backslash (list_ascii_of_string normalized)
  /\ resolveId ctx source (Some importer) = resolveId ctx source (Some normalized).
Proof.
  intros normalized. subst normalized. split.
  - apply replaceAll_clean. discriminate.
  - unfold resolveId. simpl. rewrite replaceAll_idempotent.
    destruct (String.eqb importer "") eqn:Hempty.
    + apply String.eqb_eq in Hempty. subst importer. reflexivity.
    + replace (String.eqb (replaceAll backslash "/" importer) "") with false;
        [reflexivity |].
      symmetry. apply String.eqb_neq. rewrite replaceAll_empty.
      now apply String.eqb_neq.
Qed.

Lemma resolveId_falsy (ctx : Ctx) (source : string) (importer : option string) :
  falsy importer = true ->
  resolveId ctx source importer = (Unresolved, registerEntry ctx source).
Proof. intros Hfalsy. unfold resolveId. now rewrite Hfalsy. Qed.

(** X4. Requests without importer, or with the empty string as importer,
    are entry registrations: each answers [undefined] and appends the
    resolved source to the entry points. Over any number of them the entry
    points are the earlier ones followed by the resolved sources in request
    order, repetitions included, and the pool and the options are left as
    they were. *)
Theorem resolveId_registers_entries (ctx : Ctx)
    (requests : list (string * option string)) :
  Forall (fun request => falsy (snd request) = true) requests ->
  let ctx' :=
    fold_left (fun c request => snd (resolveId c (fst request) (snd request)))
              requests ctx in
  Forall (fun request =>
            forall c, fst (resolveId c (fst request) (snd request)) = Unresolved)
         requests
  /\ entries ctx'
     = entries ctx ++ map (fun request => path_resolve [fst request]) requests
  /\ programs ctx' = programs ctx
  /\ resolvedOptions ctx' = resolvedOptions ctx.
Proof.
  intros Hall ctx'. subst ctx'. revert ctx.
  induction Hall as [| [source importer] rest Hfalsy _ IH]; intros ctx; simpl.
  - rewrite app_nil_r. repeat split. constructor.
  - simpl in Hfalsy. rewrite (resolveId_falsy ctx source importer Hfalsy).
    destruct (IH (registerEntry ctx source))
      as [Hanswers [Hentries [Hprograms Hoptions]]].
    simpl in *. rewrite Hentries, Hprograms, Hoptions, <- app_assoc.
    repeat split. constructor; [| exact Hanswers].
    intros c. now rewrite resolveId_falsy.
Qed.

(** X5. [resolveId] marks an import external exactly when the module
    resolves, comes from an external library, respect-external is off and
    its package is not listed for inclusion; the identity it then returns is
    the import specifier as written. *)
Theorem resolveId_external_iff (ctx : Ctx) (source importer id : string) :
  importer <> "" ->
  let normalized := replaceAll backslash "/" importer in
  fst (resolveId ctx source (Some importer)) = Resolved id true
  <-> id = source
      /\ exists m,
           resolveModuleName source normalized
             (resolvedCompilerOptions ctx source normalized) = Some m
           /\ ts.isExternalLibraryImport m = true
           /\ respectExternal (resolvedOptions ctx) = false
           /\ isIncluded ctx m = false.
Proof.
  intros Hne normalized. subst normalized. apply String.eqb_neq in Hne.
  unfold resolveId. simpl. rewrite Hne.
  destruct (resolveModuleName source _ _) as [m |].
  - destruct (ts.isExternalLibraryImport m) eqn:Hext,
             (isIncluded ctx m) eqn:Hinc,
             (respectExternal (resolvedOptions ctx)) eqn:Hresp; simpl;
      (split;
       [ intros Heq;
         first [ discriminate Heq
               | injection Heq as <-; split; [reflexivity | exists m; auto] ]
       | intros [-> [m' [Hm [Hext' [Hresp' Hinc']]]]]; injection Hm as <-;
         congruence ]).
  - simpl. split; [discriminate | intros [_ [m [Hm _]]]; discriminate].
Qed.

(** *** The counters *)

Lemma indexOfFrom_bounds (l : list string) (x : string) (i : Z) :
  (0 <= i)%Z ->
  (~ In x l -> indexOfFrom l x i = (-1)%Z)
  /\ (In x l -> (i <= indexOfFrom l x i)%Z).
Proof.
  revert i. induction l as [| y l IH]; intros i Hi; simpl.
  - split; [reflexivity | contradiction].
  - destruct (String.eqb y x) eqn:Hy.
    + apply String.eqb_eq in Hy. split; [intros Hn; contradict Hn; now left | lia].
    + apply String.eqb_neq in Hy.
      destruct (IH (i + 1)%Z ltac:(lia)) as [Hout Hin]. split.
      * intros Hn. apply Hout. tauto.
      * intros [Heq | Hx]; [contradiction |]. specialize (Hin Hx). lia.
Qed.

Lemma accounts_step (g : Tracker) (seen : list string) (fileName : string) :
  Accounts g seen -> Accounts (leave (enter g fileName)) (seen ++ [fileName]).
Proof.
  intros [Hstack [Htotal [Hfiles Hcount]]]. unfold Accounts. simpl.
  repeat split.
  - rewrite Hstack. reflexivity.
  - rewrite Htotal, length_app. reflexivity.
  - rewrite list_to_set_app_L, Hfiles. simpl.
    destruct (bool_decide (fileName ∈ list_to_set seen)) eqn:Hin; simpl.
    + apply bool_decide_eq_true in Hin. apply set_eq. intros x.
      rewrite !elem_of_union, elem_of_singleton, elem_of_empty.
      split; [tauto | intros [Hx | [-> | []]]; assumption].
    + apply set_eq. intros x.
      rewrite !elem_of_union, elem_of_singleton, elem_of_empty. tauto.
  - intros other. rewrite count_occ_app. simpl.
    destruct (string_dec fileName other) as [<- | Hne].
    + rewrite lookup_insert_eq. simpl. now rewrite Hcount.
    + rewrite lookup_insert_ne by assumption. rewrite Hcount. lia.
Qed.

(** X6. Over a session of resolution requests the counters keep count: the
    stack is empty again, the total is the number of requests, the processed
    files are the requested names and each per-file count is the number of
    requests for that file. *)
Theorem counters_account_for_requests (ctx : Ctx) (g : Tracker)
    (seen : list string) (requests : list (string * string)) :
  Accounts g seen ->
  Accounts (snd (resolveAll ctx g requests)) (seen ++ map fst requests).
Proof.
  revert ctx g seen. induction requests as [| [fileName code] rest IH];
    intros ctx g seen Hacc; simpl.
  - now rewrite app_nil_r.
  - pose proof (getModule_tracker ctx g fileName code) as Hg.
    destruct (getModule ctx g fileName code) as [[module ctx1] g1].
    simpl in Hg. subst g1.
    specialize (IH ctx1 _ _ (accounts_step g seen fileName Hacc)).
    destruct (resolveAll ctx1 _ rest) as [[modules ctx2] g2]. simpl in *.
    now rewrite <- app_assoc in IH.
Qed.

Lemma accounts_empty : Accounts emptyTracker [].
Proof.
  unfold Accounts. simpl. repeat split.
Qed.

(** X7. When the counters account for the requests so far, the report of
    the next request never announces a cycle and shows depth zero; it says
    NEW, without warning, for a file name not requested before, and SEEN
    with the repetition warning and the request's number otherwise. *)
Theorem debugReport_of_accounted (ctx : Ctx) (g : Tracker) (seen : list string)
    (fileName : string) :
  Accounts g seen ->
  debugReport ctx g fileName
  = {| note :=
         if count_occ string_dec seen fileName =? 0 then NoNote
         else Repeated (S (count_occ string_dec seen fileName));
       isNewFile := count_occ string_dec seen fileName =? 0;
       uniqueFiles := size (list_to_set (seen ++ [fileName]) : gset string);
       poolSize := length (programs ctx);
       isDTS := DTS_EXTENSIONS fileName;
       depth := 0 |}.
Proof.
  intros Hacc.
  destruct (accounts_step g seen fileName Hacc) as [_ [_ [Hfiles' _]]].
  destruct Hacc as [Hstack [Htotal [Hfiles Hcount]]].
  unfold debugReport. rewrite Hstack, Hcount.
  change (filesProcessed (enter g fileName))
    with (filesProcessed (leave (enter g fileName))).
  rewrite Hfiles', Hfiles. simpl. f_equal.
  - destruct (count_occ string_dec seen fileName); simpl; [reflexivity |].
    now rewrite Nat.add_1_r.
  - destruct (count_occ string_dec seen fileName =? 0) eqn:Hzero.
    + apply Nat.eqb_eq in Hzero. apply count_occ_not_In in Hzero.
      apply negb_true_iff, bool_decide_eq_false.
      rewrite elem_of_list_to_set, list_elem_of_In. exact Hzero.
    + apply Nat.eqb_neq in Hzero.
      apply negb_false_iff, bool_decide_eq_true.
      rewrite elem_of_list_to_set, list_elem_of_In.
      apply (count_occ_In string_dec). lia.
Qed.

(** X8. In a session of resolution requests that starts with an empty
    stack, no request is ever reported as a cycle: each call pops what it
    pushed before it returns, so every report shows depth zero. *)
Theorem cycle_never_reported (ctx : Ctx) (g : Tracker)
    (requests : list (string * string)) :
  moduleResolutionStack g = [] ->
  Forall (fun report =>
            depth report = 0 /\ forall i, note report <> CycleDetected i)
         (debugTrace ctx g requests).
Proof.
  revert ctx g. induction requests as [| [fileName code] rest IH];
    intros ctx g Hstack; simpl; [constructor |].
  pose proof (getModule_tracker ctx g fileName code) as Hg.
  destruct (getModule ctx g fileName code) as [[module ctx1] g1].
  simpl in Hg. subst g1. constructor.
  - unfold debugReport. rewrite Hstack. simpl. split; [reflexivity |].
    intros i. now destruct (1 <? _).
  - apply IH. destruct (leave_enter g fileName) as [Hbalanced _].
    now rewrite Hbalanced.
Qed.


Lemma handleDtsFile_tracker (ctx : Ctx) (g : Tracker) (code id : string) :
  snd (handleDtsFile ctx g code id) = leave (enter g id).
Proof.
  unfold handleDtsFile. pose proof (getModule_tracker ctx g id code) as Hg.
  destruct (getModule ctx g id code) as [[module ctx1] g1]. simpl in Hg.
  now destruct module.
Qed.

Lemma treatTsAsDts_tracker (ctx : Ctx) (g : Tracker) (code id : string) :
  snd (treatTsAsDts ctx g code id) = leave (enter g (getDeclarationId id)).
Proof.
  unfold treatTsAsDts.
  pose proof (getModule_tracker ctx g (getDeclarationId id) code) as Hg.
  destruct (getModule ctx g (getDeclarationId id) code) as [[module ctx1] g1].
  simpl in Hg. now destruct module.
Qed.

Lemma treatOrGenerate_tracker (ctx : Ctx) (g : Tracker) (code id : string) :
  snd (treatOrGenerate ctx g code id) = leave (enter g (getDeclarationId id))
  \/ snd (treatOrGenerate ctx g code id)
     = leave (enter (leave (enter g (getDeclarationId id))) id).
Proof.
  unfold treatOrGenerate.
  pose proof (treatTsAsDts_tracker ctx g code id) as Hg.
  destruct (treatTsAsDts ctx g code id) as [[treated ctx1] g1]. simpl in Hg.
  subst g1. destruct (outcome treated) as [[out |] | message]; auto.
  pose proof (generateDts_tracker ctx1 (leave (enter g (getDeclarationId id)))
                                  code id) as Hg.
  destruct (generateDts ctx1 _ code id) as [[run ctx2] g2]. simpl in *. auto.
Qed.

(** X9. One run of the transform hook makes at most two resolution
    requests and leaves the resolution stack as it found it: none for a file
    that is neither TypeScript, JavaScript nor JSON, exactly one for a
    declaration or JSON file, one or two for a source file. *)
Theorem transform_resolution_count (ctx : Ctx) (g : Tracker) (code id : string) :
  let g' := snd (transform ctx g code id) in
  moduleResolutionStack g' = moduleResolutionStack g
  /\ resolutions g g' <= 2
  /\ (resolutions g g' = 0
      <-> TS_EXTENSIONS id = false /\ JSON_EXTENSIONS id = false)
  /\ (TS_EXTENSIONS id || JSON_EXTENSIONS id = true ->
      DTS_EXTENSIONS id || JSON_EXTENSIONS id = true ->
      resolutions g g' = 1).
Proof.
  intros g'.
  assert (Hcases :
            (TS_EXTENSIONS id = false /\ JSON_EXTENSIONS id = false /\ g' = g)
            \/ (TS_EXTENSIONS id || JSON_EXTENSIONS id = true
                /\ exists x, g' = leave (enter g x))
            \/ (TS_EXTENSIONS id || JSON_EXTENSIONS id = true
                /\ DTS_EXTENSIONS id || JSON_EXTENSIONS id = false
                /\ exists x y, g' = leave (enter (leave (enter g x)) y))).
  { subst g'. unfold transform.
    destruct (TS_EXTENSIONS id), (JSON_EXTENSIONS id); simpl; auto;
      destruct (DTS_EXTENSIONS id); simpl;
      rewrite ?handleDtsFile_tracker, ?generateDts_tracker; eauto.
    destruct (treatOrGenerate_tracker ctx g code id) as [-> | ->]; eauto 7. }
  unfold resolutions.
  destruct Hcases as [[Hts [Hjson ->]] | [[Hany [x ->]] | [Hany [Hone [x [y ->]]]]]].
  - rewrite Hts, Hjson. repeat split; intros; try lia; discriminate.
  - destruct (leave_enter g x) as [-> ->].
    repeat split; try lia.
    intros [Hts Hjson]. rewrite Hts, Hjson in Hany. discriminate.
  - destruct (leave_enter (leave (enter g x)) y) as [-> ->].
    destruct (leave_enter g x) as [-> ->].
    repeat split; try lia; try congruence.
    intros [Hts Hjson]. rewrite Hts, Hjson in Hany. discriminate.
Qed.

Lemma handleDtsFile_any_tracker (ctx : Ctx) (g g' : Tracker) (code id : string) :
  fst (handleDtsFile ctx g code id) = fst (handleDtsFile ctx g' code id).
Proof.
  unfold handleDtsFile. pose proof (getModule_any_tracker ctx g g' id code) as Hm.
  destruct (getModule ctx g id code) as [[m1 c1] g1].
  destruct (getModule ctx g' id code) as [[m2 c2] g2].
  simpl in Hm. injection Hm as -> ->. now destruct m2.
Qed.

Lemma treatTsAsDts_any_tracker (ctx : Ctx) (g g' : Tracker) (code id : string) :
  fst (treatTsAsDts ctx g code id) = fst (treatTsAsDts ctx g' code id).
Proof.
  unfold treatTsAsDts.
  pose proof (getModule_any_tracker ctx g g' (getDeclarationId id) code) as Hm.
  destruct (getModule ctx g _ code) as [[m1 c1] g1].
  destruct (getModule ctx g' _ code) as [[m2 c2] g2].
  simpl in Hm. injection Hm as -> ->. now destruct m2.
Qed.

Lemma generateDts_any_tracker (ctx : Ctx) (g g' : Tracker) (code id : string) :
  fst (generateDts ctx g code id) = fst (generateDts ctx g' code id).
Proof.
  unfold generateDts. pose proof (getModule_any_tracker ctx g g' id code) as Hm.
  destruct (getModule ctx g id code) as [[m1 c1] g1].
  destruct (getModule ctx g' id code) as [[m2 c2] g2].
  simpl in Hm. injection Hm as -> ->. destruct m2 as [module |]; [| reflexivity].
  destruct (ResolvedModule.source module), (ResolvedModule.program module);
    try reflexivity.
  destruct (ts.emitSkipped _); [| reflexivity].
  now destruct (negb _).
Qed.

(** X10. The counters never change what the hooks do: from the same context,
    [transform] returns the same run and leaves the same context whatever
    the state of the counters, and so does a whole session. *)
Theorem counters_do_not_interfere (ctx : Ctx) (g g' : Tracker)
    (requests : list (string * string)) :
  fst (transformAll ctx g requests) = fst (transformAll ctx g' requests).
Proof.
  assert (Hone : forall ctx g g' code id,
             fst (transform ctx g code id) = fst (transform ctx g' code id)).
  { clear. intros ctx g g' code id. unfold transform.
    destruct (negb (TS_EXTENSIONS id) && negb (JSON_EXTENSIONS id));
      [reflexivity |].
    destruct (DTS_EXTENSIONS id); [apply handleDtsFile_any_tracker |].
    destruct (JSON_EXTENSIONS id); [apply generateDts_any_tracker |].
    unfold treatOrGenerate.
    pose proof (treatTsAsDts_any_tracker ctx g g' code id) as Ht.
    destruct (treatTsAsDts ctx g code id) as [[t1 c1] g1].
    destruct (treatTsAsDts ctx g' code id) as [[t2 c2] g2].
    simpl in Ht. injection Ht as -> ->.
    destruct (outcome t2) as [[out |] | message]; try reflexivity.
    pose proof (generateDts_any_tracker c2 g1 g2 code id) as Hgen.
    destruct (generateDts c2 g1 code id) as [[r1 d1] h1].
    destruct (generateDts c2 g2 code id) as [[r2 d2] h2].
    simpl in Hgen. now injection Hgen as -> ->. }
  revert ctx g g'. induction requests as [| [code id] rest IH];
    intros ctx g g'; simpl; [reflexivity |].
  specialize (Hone ctx g g' code id).
  destruct (transform ctx g code id) as [[r1 c1] g1].
  destruct (transform ctx g' code id) as [[r2 c2] g2].
  simpl in Hone. injection Hone as -> ->.
  specialize (IH c2 g1 g2).
  destruct (transformAll c2 g1 rest) as [[rs1 d1] h1].
  destruct (transformAll c2 g2 rest) as [[rs2 d2] h2].
  simpl in IH. now injection IH as -> ->.
Qed.


(** *** The pool *)

Lemma raw_condition_iff (ctx : Ctx) (fileName : string) :
  (0 <? length (programs ctx)) && DTS_EXTENSIONS fileName
  && existsb (hasExternal fileName) (programs ctx) = true
  <-> DTS_EXTENSIONS fileName = true
      /\ exists p, In p (programs ctx) /\ ExternalMember fileName p.
Proof.
  rewrite !andb_true_iff, existsb_exists. split.
  - intros [[_ Hdts] [p [Hp Hext]]]. split; [assumption |].
    exists p. split; [assumption |]. now apply hasExternal_ExternalMember.
  - intros [Hdts [p [Hp Hext]]]. repeat split; trivial.
    + apply Nat.ltb_lt. destruct (programs ctx); [contradiction | simpl; lia].
    + exists p. split; [assumption |]. now apply hasExternal_ExternalMember.
Qed.

(** X11. [getModule] makes a new program exactly when the zero-program fast
    path does not apply, no unit matches the file, the file exists on disk,
    and it is not a declaration file that some unit holds as an external
    member. The program is then made for the requested file with the
    session's compiler options, appended after the others and returned as
    the owner; in every other case the context is left as it was. *)
Theorem getModule_creates_iff (ctx : Ctx) (g : Tracker) (fileName code : string) :
  let creates :=
    ~ (programs ctx = [] /\ DTS_EXTENSIONS fileName = true)
    /\ (forall p, In p (programs ctx) -> ~ Matches ctx fileName p)
    /\ fileExists fileName = true
    /\ ~ (DTS_EXTENSIONS fileName = true
          /\ exists p, In p (programs ctx) /\ ExternalMember fileName p) in
  let newProgram :=
    createProgram fileName (compilerOptions (resolvedOptions ctx))
                  (tsconfig (resolvedOptions ctx)) in
  (creates ->
   fst (getModule ctx g fileName code)
   = (Some (fromProgram newProgram fileName),
      withPrograms ctx (programs ctx ++ [newProgram])))
  /\ (~ creates -> snd (fst (getModule ctx g fileName code)) = ctx).
Proof.
  intros creates newProgram. subst creates newProgram.
  rewrite <- fast_path_iff, <- no_match_iff, <- raw_condition_iff.
  destruct ((length (programs ctx) =? 0) && DTS_EXTENSIONS fileName) eqn:Hfast.
  { pose proof Hfast as Hfast'. apply fast_path_iff in Hfast' as [Hempty Hdts].
    rewrite (getModule_fast_path _ _ _ _ Hempty Hdts).
    split; [intros [Hno _]; now contradict Hno | reflexivity]. }
  destruct (find (ownsFile (includes (entries ctx) fileName) fileName)
                 (programs ctx)) as [p |] eqn:Hfind.
  { rewrite (getModule_existing _ _ _ _ _ Hfind).
    split; [intros [_ [Hno _]]; discriminate | reflexivity]. }
  rewrite (getModule_no_match _ _ _ _ Hfast Hfind).
  destruct (fileExists fileName).
  - destruct ((0 <? length (programs ctx)) && DTS_EXTENSIONS fileName
              && existsb (hasExternal fileName) (programs ctx)).
    + split; [intros [_ [_ [_ Hno]]]; now contradict Hno | reflexivity].
    + split; [reflexivity |]. intros Hno. contradict Hno.
      repeat split; congruence.
  - split; [intros [_ [_ [Hno _]]]; discriminate | reflexivity].
Qed.

(** X12. A resolution record is of one of two kinds. Either it is the raw
    text as supplied, without file handle or owner: then the request was for
    a declaration-named file and the context is unchanged. Or it has an
    owner, which is a unit of the pool as the call leaves it: then the file
    handle is what that unit returns for the file, possibly nothing, and the
    text is the full text of the handle, absent when the handle is. *)
Theorem resolution_record_shape (ctx : Ctx) (g : Tracker) (fileName code : string)
    (module : ResolvedModule) :
  fst (fst (getModule ctx g fileName code)) = Some module ->
  let ctx' := snd (fst (getModule ctx g fileName code)) in
  (module = codeOnly code /\ DTS_EXTENSIONS fileName = true /\ ctx' = ctx)
  \/ (exists p,
        In p (programs ctx')
        /\ ResolvedModule.program module = Some p
        /\ ResolvedModule.source module = ts.getSourceFile p fileName
        /\ ResolvedModule.code module
           = option_map ts.getFullText (ts.getSourceFile p fileName)).
Proof.
  intros Hsome ctx'. subst ctx'. revert Hsome.
  destruct ((length (programs ctx) =? 0) && DTS_EXTENSIONS fileName) eqn:Hfast.
  { pose proof Hfast as Hfast'. apply fast_path_iff in Hfast' as [Hempty Hdts].
    rewrite (getModule_fast_path _ _ _ _ Hempty Hdts). simpl.
    intros [= <-]. now left. }
  destruct (find (ownsFile (includes (entries ctx) fileName) fileName)
                 (programs ctx)) as [p |] eqn:Hfind.
  { rewrite (getModule_existing _ _ _ _ _ Hfind). simpl. intros [= <-].
    right. exists p. apply find_some in Hfind as [Hp _]. now repeat split. }
  rewrite (getModule_no_match _ _ _ _ Hfast Hfind).
  destruct (fileExists fileName); [| discriminate].
  destruct ((0 <? length (programs ctx)) && DTS_EXTENSIONS fileName
            && existsb (hasExternal fileName) (programs ctx)) eqn:Hraw.
  - simpl. intros [= <-]. left. apply raw_condition_iff in Hraw as [Hdts _].
    now repeat split.
  - simpl. intros [= <-]. right. eexists. split; [| now repeat split].
    apply in_or_app. right. now left.
Qed.


Lemma Extends_refl (ctx : Ctx) : Extends ctx ctx 0.
Proof.
  repeat split. exists []. rewrite app_nil_r. repeat split; [simpl; lia | constructor].
Qed.

Lemma Extends_weaken (ctx ctx' : Ctx) (n m : nat) :
  n <= m -> Extends ctx ctx' n -> Extends ctx ctx' m.
Proof.
  intros Hle [He [Ho [created [Hp [Hlen Hall]]]]]. repeat split; trivial.
  exists created. repeat split; trivial. lia.
Qed.

Lemma Extends_trans (ctx1 ctx2 ctx3 : Ctx) (n m : nat) :
  Extends ctx1 ctx2 n -> Extends ctx2 ctx3 m -> Extends ctx1 ctx3 (n + m).
Proof.
  intros [He1 [Ho1 [c1 [Hp1 [Hl1 Ha1]]]]] [He2 [Ho2 [c2 [Hp2 [Hl2 Ha2]]]]].
  repeat split; try congruence.
  exists (c1 ++ c2). repeat split.
  - now rewrite Hp2, Hp1, app_assoc.
  - rewrite length_app. lia.
  - apply Forall_app. split; [assumption |]. now rewrite Ho1 in Ha2.
Qed.

Lemma getModule_extends (ctx : Ctx) (g : Tracker) (fileName code : string) :
  Extends ctx (snd (fst (getModule ctx g fileName code))) 1.
Proof.
  destruct (getModule_frame ctx g fileName code)
    as [Hentries [Hoptions [Hsame | [Hexists Hgrow]]]].
  - rewrite Hsame. apply (Extends_weaken ctx ctx 0 1); [lia | apply Extends_refl].
  - repeat split; trivial. eexists. split; [exact Hgrow |].
    split; [simpl; lia |]. constructor; [| constructor]. now exists fileName.
Qed.

Lemma treatTsAsDts_ctx (ctx : Ctx) (g : Tracker) (code id : string) :
  snd (fst (treatTsAsDts ctx g code id))
  = snd (fst (getModule ctx g (getDeclarationId id) code)).
Proof.
  unfold treatTsAsDts.
  destruct (getModule ctx g (getDeclarationId id) code) as [[m1 c1] g1]. simpl.
  now destruct m1.
Qed.

Lemma transform_extends (ctx : Ctx) (g : Tracker) (code id : string) :
  Extends ctx (snd (fst (transform ctx g code id))) 2.
Proof.
  unfold transform.
  destruct (negb (TS_EXTENSIONS id) && negb (JSON_EXTENSIONS id)).
  { apply (Extends_weaken ctx ctx 0 2); [lia | apply Extends_refl]. }
  destruct (DTS_EXTENSIONS id).
  { rewrite handleDtsFile_ctx.
    eapply Extends_weaken; [| apply getModule_extends]. lia. }
  destruct (JSON_EXTENSIONS id).
  { rewrite generateDts_ctx.
    eapply Extends_weaken; [| apply getModule_extends]. lia. }
  unfold treatOrGenerate.
  pose proof (treatTsAsDts_ctx ctx g code id) as Hctx.
  pose proof (getModule_extends ctx g (getDeclarationId id) code) as Hfirst.
  rewrite <- Hctx in Hfirst.
  destruct (treatTsAsDts ctx g code id) as [[treated ctx1] g1]. simpl in *.
  destruct (outcome treated) as [[out |] | message];
    try (eapply Extends_weaken; [| exact Hfirst]; lia).
  pose proof (generateDts_ctx ctx1 g1 code id) as Hctx2.
  pose proof (getModule_extends ctx1 g1 id code) as Hsecond.
  rewrite <- Hctx2 in Hsecond.
  destruct (generateDts ctx1 g1 code id) as [[run ctx2] g2]. simpl in *.
  exact (Extends_trans _ _ _ 1 1 Hfirst Hsecond).
Qed.

(** X13. The pool is append-only. Over any session of transform requests the
    entry points and the options stay as they were, the programs of the
    start are still there in the same order, and what was added, at most two
    programs per request, was each made for a file that exists on disk with
    the compiler options of the session. *)
Theorem pool_is_append_only (ctx : Ctx) (g : Tracker)
    (requests : list (string * string)) :
  Extends ctx (snd (fst (transformAll ctx g requests))) (2 * length requests).
Proof.
  revert ctx g. induction requests as [| [code id] rest IH]; intros ctx g; simpl.
  - apply Extends_refl.
  - pose proof (transform_extends ctx g code id) as Hstep.
    destruct (transform ctx g code id) as [[run ctx1] g1]. simpl in Hstep.
    specialize (IH ctx1 g1).
    destruct (transformAll ctx1 g1 rest) as [[runs ctx2] g2]. simpl in *.
    eapply Extends_weaken; [| exact (Extends_trans _ _ _ _ _ Hstep IH)]. lia.
Qed.

(** *** Errors and watch files of the transform hook *)

Lemma generateDts_outcome (ctx : Ctx) (g : Tracker) (code id : string) :
  let run := fst (fst (generateDts ctx g code id)) in
  match outcome run with
  | Throw message =>
      message = failedToCompile /\ exists line, console_error run = [line]
  | Return _ => console_error run = []
  end.
Proof.
  unfold generateDts.
  destruct (getModule ctx g id code) as [[module ctx1] g1].
  destruct module as [module |]; [| reflexivity].
  destruct (ResolvedModule.source module), (ResolvedModule.program module);
    try reflexivity.
  destruct (ts.emitSkipped _); [| reflexivity].
  destruct (negb _); simpl; eauto.
Qed.

Lemma handleDtsFile_returns (ctx : Ctx) (g : Tracker) (code id : string) :
  exists r watch, fst (fst (handleDtsFile ctx g code id)) = returns r watch.
Proof.
  unfold handleDtsFile.
  destruct (getModule ctx g id code) as [[module ctx1] g1].
  destruct module; simpl; eauto.
Qed.

Lemma treatTsAsDts_returns (ctx : Ctx) (g : Tracker) (code id : string) :
  exists r watch, fst (fst (treatTsAsDts ctx g code id)) = returns r watch.
Proof.
  unfold treatTsAsDts.
  destruct (getModule ctx g (getDeclarationId id) code) as [[module ctx1] g1].
  destruct module; simpl; eauto.
Qed.

(** X14. The transform hook throws only together with a log: whenever it
    throws, the message is "Failed to compile. Check the logs above.", one
    line was written to the error console and the file is not a declaration
    file; whenever it returns, nothing was written to the error console. *)
Theorem transform_throws_with_log (ctx : Ctx) (g : Tracker) (code id : string) :
  let run := fst (fst (transform ctx g code id)) in
  match outcome run with
  | Throw message =>
      message = failedToCompile
      /\ (exists line, console_error run = [line])
      /\ DTS_EXTENSIONS id = false
  | Return _ => console_error run = []
  end.
Proof.
  unfold transform.
  destruct (negb (TS_EXTENSIONS id) && negb (JSON_EXTENSIONS id));
    [reflexivity |].
  destruct (DTS_EXTENSIONS id).
  { destruct (handleDtsFile_returns ctx g code id) as [r [watch ->]]. reflexivity. }
  destruct (JSON_EXTENSIONS id).
  { pose proof (generateDts_outcome ctx g code id) as Hrun. simpl in *.
    destruct (outcome _); tauto. }
  unfold treatOrGenerate.
  destruct (treatTsAsDts_returns ctx g code id) as [r [watch Htreated]].
  destruct (treatTsAsDts ctx g code id) as [[treated ctx1] g1]. simpl in Htreated.
  subst treated. simpl. destruct r as [out |]; [reflexivity |].
  pose proof (generateDts_outcome ctx1 g1 code id) as Hrun.
  destruct (generateDts ctx1 g1 code id) as [[run ctx2] g2]. simpl in *.
  destruct (outcome run); tauto.
Qed.


Lemma getModule_owner_in_pool (ctx : Ctx) (g : Tracker) (fileName code : string)
    (module : ResolvedModule) (p : ts.Program) :
  fst (fst (getModule ctx g fileName code)) = Some module ->
  ResolvedModule.program module = Some p ->
  In p (programs (snd (fst (getModule ctx g fileName code)))).
Proof.
  unfold getModule.
  destruct (_ && DTS_EXTENSIONS fileName); simpl.
  { intros [= <-]. discriminate. }
  destruct (find _ _) as [q |] eqn:Hfind; simpl.
  { intros [= <-] [= <-]. now apply find_some in Hfind as [Hq _]. }
  destruct (fileExists fileName); [| discriminate].
  destruct (_ && _ && _); simpl.
  - intros [= <-]. discriminate.
  - intros [= <-] [= <-]. apply in_or_app. right. now left.
Qed.

Lemma Extends_In (ctx ctx' : Ctx) (n : nat) (p : ts.Program) :
  Extends ctx ctx' n -> In p (programs ctx) -> In p (programs ctx').
Proof.
  intros [_ [_ [created [-> _]]]] Hp. apply in_or_app. now left.
Qed.

Lemma watchFiles_spec (id : string) (module : ResolvedModule) :
  Forall (fun watched =>
            startsWith watched (path_dirname id) = true
            /\ exists p,
                 ResolvedModule.program module = Some p
                 /\ In watched (map ts.fileName (ts.getSourceFiles p)))
         (watchFiles id module).
Proof.
  unfold watchFiles. destruct (ResolvedModule.program module) as [p |];
    [| constructor].
  apply Forall_forall. intros watched Hin. apply filter_In in Hin as [Hin Hstarts].
  split; [assumption |]. now exists p.
Qed.

(** The watch files of one resolution: under the directory of [id], and
    source files of a unit of the pool [pool]. *)
Lemma watched_of_module (ctx : Ctx) (g : Tracker) (fileName code id : string)
    (module : ResolvedModule) (pool : list ts.Program) :
  fst (fst (getModule ctx g fileName code)) = Some module ->
  (forall p, In p (programs (snd (fst (getModule ctx g fileName code)))) ->
             In p pool) ->
  Forall (fun watched =>
            startsWith watched (path_dirname id) = true
            /\ exists p,
                 In p pool /\ In watched (map ts.fileName (ts.getSourceFiles p)))
         (watchFiles id module).
Proof.
  intros Hget Hpool. eapply Forall_impl; [| apply watchFiles_spec].
  intros watched [Hstarts [p [Hp Hin]]]. split; [assumption |].
  exists p. split; [| assumption].
  apply Hpool. eapply getModule_owner_in_pool; eassumption.
Qed.

(** X15. Every file the transform hook hands to [addWatchFile] lies under
    the directory of the requested file, by its name, and is a source file
    of a unit that is in the pool when the hook returns. *)
Theorem watch_files_under_directory (ctx : Ctx) (g : Tracker) (code id : string) :
  Forall (fun watched =>
            startsWith watched (path_dirname id) = true
            /\ exists p,
                 In p (programs (snd (fst (transform ctx g code id))))
                 /\ In watched (map ts.fileName (ts.getSourceFiles p)))
         (addWatchFile (fst (fst (transform ctx g code id)))).
Proof.
  unfold transform.
  destruct (negb (TS_EXTENSIONS id) && negb (JSON_EXTENSIONS id));
    [constructor |].
  destruct (DTS_EXTENSIONS id).
  { unfold handleDtsFile.
    pose proof (watched_of_module ctx g id code id) as Hwatch.
    destruct (getModule ctx g id code) as [[module ctx1] g1].
    destruct module as [module |]; simpl in *; [| constructor].
    now apply Hwatch. }
  destruct (JSON_EXTENSIONS id).
  { unfold generateDts.
    pose proof (watched_of_module ctx g id code id) as Hwatch.
    destruct (getModule ctx g id code) as [[module ctx1] g1].
    destruct module as [module |]; simpl in *; [| constructor].
    specialize (Hwatch module (programs ctx1) eq_refl (fun p Hp => Hp)).
    destruct (ResolvedModule.source module), (ResolvedModule.program module);
      try constructor.
    destruct (ts.emitSkipped _); [| exact Hwatch].
    destruct (negb _); exact Hwatch. }
  unfold treatOrGenerate, treatTsAsDts.
  pose proof (watched_of_module ctx g (getDeclarationId id) code id) as Hfirst.
  destruct (getModule ctx g (getDeclarationId id) code) as [[module ctx1] g1].
  destruct module as [module |]; simpl in *.
  - destruct (transformPlugin_transform _ _) as [out |]; simpl.
    + now apply Hfirst.
    + pose proof (generateDts_ctx ctx1 g1 code id) as Hctx.
      pose proof (getModule_extends ctx1 g1 id code) as Hext.
      rewrite <- Hctx in Hext.
      assert (Hsecond :
                Forall (fun watched =>
                          startsWith watched (path_dirname id) = true
                          /\ exists p,
                               In p (programs (snd (fst (generateDts ctx1 g1 code id))))
                               /\ In watched (map ts.fileName (ts.getSourceFiles p)))
                       (addWatchFile (fst (fst (generateDts ctx1 g1 code id))))).
      { unfold generateDts.
        pose proof (watched_of_module ctx1 g1 id code id) as Hwatch.
        destruct (getModule ctx1 g1 id code) as [[module2 ctx2] g2].
        destruct module2 as [module2 |]; simpl in *; [| constructor].
        specialize (Hwatch module2 (programs ctx2) eq_refl (fun p Hp => Hp)).
        destruct (ResolvedModule.source module2),
                 (ResolvedModule.program module2); try constructor.
        destruct (ts.emitSkipped _); [| exact Hwatch].
        destruct (negb _); exact Hwatch. }
      destruct (generateDts ctx1 g1 code id) as [[run ctx2] g2]. simpl in *.
      apply Forall_app. split; [| exact Hsecond].
      apply (Hfirst module (programs ctx2) eq_refl).
      intros p Hp. eapply Extends_In; eassumption.
  - unfold generateDts.
    pose proof (watched_of_module ctx1 g1 id code id) as Hwatch.
    destruct (getModule ctx1 g1 id code) as [[module2 ctx2] g2].
    destruct module2 as [module2 |]; simpl in *; [| constructor].
    specialize (Hwatch module2 (programs ctx2) eq_refl (fun p Hp => Hp)).
    destruct (ResolvedModule.source module2),
             (ResolvedModule.program module2); try constructor.
    destruct (ts.emitSkipped _); [| exact Hwatch].
    destruct (negb _); exact Hwatch.
Qed.

Lemma writeAll_last (declarationId : string) (written : list (string * string)) :
  writeAll declarationId written
  = match rev written with
    | [] => None
    | (_, declarationText) :: _ =>
        transformPlugin_transform (Some declarationText) declarationId
    end.
Proof.
  unfold writeAll. rewrite <- fold_left_rev_right.
  destruct (rev written) as [| [name text] rest]; reflexivity.
Qed.

(** X16. When the emit is not skipped, generate-from-source returns and
    logs nothing, whatever diagnostics the emit reports: it returns the
    bundling of the text the emit wrote last, under the declaration identity
    of the request and whatever file name it was written under, and the null
    value when the emit wrote nothing. *)
Theorem emit_not_skipped_returns_last (ctx ctx' : Ctx) (g g' : Tracker)
    (code id : string) (module : ResolvedModule) (source : ts.SourceFile)
    (program : ts.Program) :
  getModule ctx g id code = (Some module, ctx', g') ->
  ResolvedModule.source module = Some source ->
  ResolvedModule.program module = Some program ->
  ts.emitSkipped (ts.emit program source) = false ->
  generateDts ctx g code id
  = (returns
       match rev (ts.written (ts.emit program source)) with
       | [] => None
       | (_, declarationText) :: _ =>
           transformPlugin_transform (Some declarationText) (getDeclarationId id)
       end
       (watchFiles id module), ctx', g').
Proof.
  intros Hget Hsource Hprogram Hskipped.
  unfold generateDts. rewrite Hget, Hsource, Hprogram, Hskipped.
  now rewrite writeAll_last.
Qed.


(** *** One unit per file *)





(** *** The cycle warning *)

Lemma indexOfFrom_found (l : list string) (x : string) (i : Z) :
  In x l ->
  exists k,
    indexOfFrom l x i = (i + Z.of_nat k)%Z
    /\ nth_error l k = Some x
    /\ forall j, j < k -> nth_error l j <> Some x.
Proof.
  revert i. induction l as [| y l IH]; intros i Hin; [contradiction |]. simpl.
  destruct (String.eqb y x) eqn:Hy.
  - apply String.eqb_eq in Hy. subst y. exists 0.
    repeat split; [lia | intros j Hj; lia].
  - apply String.eqb_neq in Hy. destruct Hin as [Heq | Hin]; [contradiction |].
    destruct (IH (i + 1)%Z Hin) as [k [Hidx [Hnth Hfirst]]].
    exists (S k). repeat split; [lia | exact Hnth |].
    intros [| j] Hj; simpl; [congruence | apply Hfirst; lia].
Qed.

(** X19. The cycle warning is reported exactly for a file that is on the
    resolution stack when the request arrives, with the position of its
    first occurrence on the stack; it takes precedence over the repetition
    warning. *)
Theorem cycle_reported_iff_on_stack (ctx : Ctx) (g : Tracker) (fileName : string)
    (i : Z) :
  note (debugReport ctx g fileName) = CycleDetected i
  <-> (0 <= i)%Z
      /\ nth_error (moduleResolutionStack g) (Z.to_nat i) = Some fileName
      /\ forall j, j < Z.to_nat i ->
                   nth_error (moduleResolutionStack g) j <> Some fileName.
Proof.
  unfold debugReport, indexOf. simpl.
  set (stack := moduleResolutionStack g).
  destruct (in_dec string_dec fileName stack) as [Hin | Hout].
  - destruct (indexOfFrom_found stack fileName 0 Hin) as [k [-> [Hnth Hfirst]]].
    replace (0 <=? 0 + Z.of_nat k)%Z with true
      by (symmetry; apply Z.leb_le; lia).
    split.
    + intros [= <-]. replace (Z.to_nat (0 + Z.of_nat k)) with k by lia.
      repeat split; [lia | assumption | assumption].
    + intros [Hi [Hnth' Hfirst']]. f_equal.
      destruct (Nat.lt_trichotomy k (Z.to_nat i)) as [Hlt | [Heq | Hgt]].
      * now apply Hfirst' in Hlt.
      * lia.
      * now apply Hfirst in Hgt.
  - destruct (indexOfFrom_bounds stack fileName 0 ltac:(lia)) as [Hminus _].
    rewrite (Hminus Hout). simpl. split.
    + destruct (1 <? _); discriminate.
    + intros [_ [Hnth _]]. apply nth_error_In in Hnth. contradiction.
Qed.


End HookProperties.

Section InputRewriteProperties.

Context `{PathHelpers}.

Lemma namedInputs_snoc (inputs : list string) (filename : string) :
  namedInputs (inputs ++ [filename]) = assignInput (namedInputs inputs) filename.
Proof. unfold namedInputs. now rewrite fold_left_app. Qed.

(** X17. The object of named inputs that the [options] hook builds from an
    array of inputs holds, under each name, the last input of the array with
    that name: an earlier input of the same name is replaced. It has no
    [__proto__] property and no more properties than the array has inputs. *)
Theorem namedInputs_last_wins (inputs : list string) (name : string) :
  namedInputs inputs !! name
  = (if String.eqb name "__proto__" then None
     else head (filter (fun filename => String.eqb (inputName filename) name)
                       (rev inputs)))
  /\ size (namedInputs inputs) <= length inputs.
Proof.
  induction inputs as [| filename inputs [IHlookup IHsize]] using rev_ind.
  - split; [| reflexivity]. unfold namedInputs. simpl. rewrite lookup_empty.
    now destruct (String.eqb name "__proto__").
  - rewrite namedInputs_snoc, rev_app_distr, length_app. simpl.
    unfold assignInput.
    destruct (String.eqb (inputName filename) "__proto__") eqn:Hproto.
    + split; [| lia]. rewrite IHlookup.
      destruct (String.eqb name "__proto__") eqn:Hname; [reflexivity |].
      apply String.eqb_eq in Hproto. rewrite Hproto.
      now rewrite String.eqb_sym, Hname.
    + split.
      * destruct (String.eqb (inputName filename) name) eqn:Heq.
        -- apply String.eqb_eq in Heq. subst name.
           rewrite lookup_insert_eq, Hproto. reflexivity.
        -- apply String.eqb_neq in Heq.
           rewrite lookup_insert_ne by assumption. exact IHlookup.
      * destruct (namedInputs inputs !! inputName filename) as [old |] eqn:Hold.
        -- rewrite map_size_insert_Some by eauto. lia.
        -- rewrite map_size_insert_None by assumption. lia.
Qed.

End InputRewriteProperties.

(** *** The further properties at work *)

Lemma resolveId_registers_entries_witness :
  entries (fold_left
             (fun c request => snd (resolveId c (fst request) (snd request)))
             [("/src/index.ts", Some ""); ("/src/util.ts", None)] Demo.project)
  = ["/src/index.ts"; "/src/index.ts"; "/src/util.ts"].
Proof.
  refine (proj1 (proj2 (resolveId_registers_entries Demo.project
                          [("/src/index.ts", Some ""); ("/src/util.ts", None)]
                          _))).
  repeat constructor.
Defined.

Lemma resolveId_external_iff_witness :
  fst (resolveId Demo.project "lib" (Some "/src/index.ts")) = Resolved "lib" true.
Proof.
  apply (proj2 (resolveId_external_iff Demo.project "lib" "/src/index.ts" "lib"
                  ltac:(discriminate))).
  split; [reflexivity |]. eexists. repeat split; reflexivity.
Defined.

Lemma counters_account_for_requests_witness :
  Accounts
    (snd (resolveAll Demo.project emptyTracker
            [("/src/util.ts", "a"); ("/src/ghost.ts", "b"); ("/src/util.ts", "a")]))
    ["/src/util.ts"; "/src/ghost.ts"; "/src/util.ts"].
Proof.
  exact (counters_account_for_requests Demo.project emptyTracker []
           [("/src/util.ts", "a"); ("/src/ghost.ts", "b"); ("/src/util.ts", "a")]
           accounts_empty).
Defined.

Lemma debugReport_of_accounted_witness :
  debugReport Demo.project (leave (enter emptyTracker "/src/util.ts"))
              "/src/util.ts"
  = {| note := Repeated 2;
       isNewFile := false;
       uniqueFiles :=
         size (list_to_set ["/src/util.ts"; "/src/util.ts"] : gset string);
       poolSize := 1;
       isDTS := false;
       depth := 0 |}.
Proof.
  exact (debugReport_of_accounted Demo.project _ ["/src/util.ts"] "/src/util.ts"
           (accounts_step emptyTracker [] "/src/util.ts" accounts_empty)).
Defined.

Example second_request_is_seen :
  uniqueFiles (debugReport Demo.project (leave (enter emptyTracker "/src/util.ts"))
                           "/src/util.ts") = 1
  /\ note (debugReport Demo.project emptyTracker "/src/util.ts") = NoNote.
Proof. split; vm_compute; reflexivity. Qed.

Lemma cycle_never_reported_witness :
  Forall (fun report =>
            depth report = 0 /\ forall i, note report <> CycleDetected i)
         (debugTrace Demo.project emptyTracker
            [("/src/util.ts", "a"); ("/src/util.ts", "a"); ("/src/index.ts", "b")]).
Proof.
  exact (cycle_never_reported Demo.project emptyTracker _ eq_refl).
Defined.

Lemma getModule_creates_iff_witness :
  fst (getModule Demo.project emptyTracker "/src/types.d.ts" "export {};")
  = (Some (fromProgram (Demo.programFor "/src/types.d.ts") "/src/types.d.ts"),
     withPrograms Demo.project
       (programs Demo.project ++ [Demo.programFor "/src/types.d.ts"])).
Proof.
  apply (proj1 (getModule_creates_iff Demo.project emptyTracker
                  "/src/types.d.ts" "export {};")).
  repeat split.
  - intros [Hempty _]. discriminate Hempty.
  - intros p [<- | []] [[Hentry _] | [_ [sourceFile [Hmember _]]]].
    + destruct Hentry as [Heq | []]. discriminate Heq.
    + discriminate Hmember.
  - intros [_ [p [[<- | []] [sourceFile [Hmember _]]]]]. discriminate Hmember.
Defined.

Lemma resolution_record_shape_witness :
  (fromProgram Demo.indexProgram "/src/util.ts" = codeOnly "raw"
   /\ DTS_EXTENSIONS "/src/util.ts" = true
   /\ snd (fst (getModule Demo.project emptyTracker "/src/util.ts" "raw"))
      = Demo.project)
  \/ (exists p,
        In p (programs (snd (fst (getModule Demo.project emptyTracker
                                            "/src/util.ts" "raw"))))
        /\ ResolvedModule.program (fromProgram Demo.indexProgram "/src/util.ts")
           = Some p
        /\ ResolvedModule.source (fromProgram Demo.indexProgram "/src/util.ts")
           = ts.getSourceFile p "/src/util.ts"
        /\ ResolvedModule.code (fromProgram Demo.indexProgram "/src/util.ts")
           = option_map ts.getFullText (ts.getSourceFile p "/src/util.ts")).
Proof.
  exact (resolution_record_shape Demo.project emptyTracker "/src/util.ts" "raw"
           (fromProgram Demo.indexProgram "/src/util.ts") eq_refl).
Defined.

Lemma emit_not_skipped_returns_last_witness :
  generateDts Demo.project emptyTracker "raw" "/src/util.ts"
  = (returns (Some (Some "declare export const u = 1;", "/src/util.d.ts"))
             ["/src/index.ts"; "/src/util.ts"],
     Demo.project, leave (enter emptyTracker "/src/util.ts")).
Proof.
  exact (emit_not_skipped_returns_last Demo.project Demo.project emptyTracker _
           "raw" "/src/util.ts" (fromProgram Demo.indexProgram "/src/util.ts")
           _ Demo.indexProgram eq_refl eq_refl eq_refl eq_refl).
Defined.

#[local] Existing Instance DemoPaths.helpers.

Example named_inputs_collapse :
  let inputs := ["/a/index.ts"; "/b/index.ts"; "src/util.ts"] in
  namedInputs inputs !! "index" = Some "/b/index.ts"
  /\ namedInputs inputs !! "src/util" = Some "src/util.ts"
  /\ size (namedInputs inputs) = 2.
Proof. repeat split; vm_compute; reflexivity. Qed.


Example units_made_once :
  creations Demo.project emptyTracker
    [("/src/types.d.ts", "a"); ("/src/data.json", "b");
     ("/src/types.d.ts", "a"); ("/src/types.d.ts", "c")]
  = ["/src/types.d.ts"; "/src/data.json"].
Proof. vm_compute. reflexivity. Qed.

(** A request that arrives while the same file is on the stack. *)
Example cycle_on_stack :
  note (debugReport Demo.project (enter (enter emptyTracker "/src/a.ts") "/src/b.ts")
                    "/src/a.ts")
  = CycleDetected 0.
Proof. vm_compute. reflexivity. Qed.
